(** * The Discord interaction endpoint of [src/server.js]

    A shallow embedding of the Cloudflare worker that answers Discord
    interaction callbacks: [verifyDiscordRequest] (signature check, then
    [JSON.parse]), the [router.post('/')] handler (guard, then the flat
    dispatch on [interaction.type]) and the [JsonResponse] class.

    JavaScript values are a first-order data type, the platform functions
    the handler calls ([verifyKey], [JSON.parse], [String.prototype.toLowerCase])
    and the command table of [commands.js] are variables of the section that
    holds the handler, and every call of a platform function with an effect is
    recorded in a trace. *)

From Stdlib Require Import ZArith List String Ascii Bool Lia DecimalString.
Import ListNotations.
Local Open Scope string_scope.
Local Open Scope Z_scope.

Set Implicit Arguments.
Set Warnings "-register-all".

(** ** JavaScript values *)

(** The values a parsed interaction and a response payload are made of.
    Numbers are the integers (the handler compares [interaction.type] with
    small integer constants and tests numbers for being zero), so a
    fraction has no value here; an object is its own properties in the
    order JavaScript enumerates them, which is the order they were added
    in unless a key is integer-like. *)
Inductive value : Type :=
| VUndefined
| VNull
| VBool (b : bool)
| VNum (n : Z)
| VStr (s : string)
| VArr (items : list value)
| VObj (props : list (string * value)).

(** [ToBoolean]: the falsy values are [undefined], [null], [false], [0]
    and the empty string. *)
Definition truthy (v : value) : bool :=
  match v with
  | VUndefined | VNull => false
  | VBool b => b
  | VNum n => negb (n =? 0)
  | VStr s => negb (s =? "")%string
  | VArr _ | VObj _ => true
  end.

(** [ToBoolean] of what [Headers.get] returns: [null] when the header is
    absent, else its string value. *)
Definition truthy_header (h : option string) : bool :=
  match h with
  | None => false
  | Some s => negb (s =? "")%string
  end.

Fixpoint assoc (k : string) (props : list (string * value)) : option value :=
  match props with
  | [] => None
  | (k', v) :: rest => if (k' =? k)%string then Some v else assoc k rest
  end.

(** [v === n] for a number literal [n], and [v === s] for a string literal. *)
Definition strict_eq_num (v : value) (n : Z) : bool :=
  match v with
  | VNum m => m =? n
  | _ => false
  end.

Definition strict_eq_str (v : value) (s : string) : bool :=
  match v with
  | VStr t => (t =? s)%string
  | _ => false
  end.

(** ** [JSON.stringify] *)

(** The double-quote character, U+0022. *)
Definition dquote : ascii := ascii_of_nat 34.

Definition hex_digit (n : N) : ascii :=
  match n with
  | 0 => "0" | 1 => "1" | 2 => "2" | 3 => "3" | 4 => "4" | 5 => "5"
  | 6 => "6" | 7 => "7" | 8 => "8" | 9 => "9" | 10 => "a" | 11 => "b"
  | 12 => "c" | 13 => "d" | 14 => "e" | _ => "f"
  end%N%char.

(** One character of a string literal, escaped as [JSON.stringify] does
    (QuoteJSONString): the two-character escapes, [\u00xx] for the other
    control characters, anything else unchanged. *)
Definition quote_char (c : ascii) : string :=
  let n := N_of_ascii c in
  if (n =? 34)%N then String "\" (String dquote "")
  else if (n =? 92)%N then "\\"
  else if (n =? 8)%N then "\b"
  else if (n =? 12)%N then "\f"
  else if (n =? 10)%N then "\n"
  else if (n =? 13)%N then "\r"
  else if (n =? 9)%N then "\t"
  else if (n <? 32)%N then
    "\u00" ++ String (hex_digit (n / 16)) (String (hex_digit (n mod 16)) "")
  else String c "".

Fixpoint quote_chars (s : string) : string :=
  match s with
  | EmptyString => ""
  | String c rest => quote_char c ++ quote_chars rest
  end.

Definition quote (s : string) : string :=
  String dquote (quote_chars s ++ String dquote "").

(** The decimal digits of an integer. JavaScript prints the same for the
    integers a double holds exactly below 10^21, the constants of the
    handler's payloads among them. *)
Definition number_to_string (n : Z) : string :=
  NilZero.string_of_int (Z.to_int n).

Fixpoint join (sep : string) (parts : list string) : string :=
  match parts with
  | [] => ""
  | [p] => p
  | p :: rest => p ++ sep ++ join sep rest
  end.

(** [JSON.stringify v]: [None] stands for the result [undefined]. A
    property whose value serialises to [undefined] is left out of its
    object, and such an array element is written [null]. Members are
    written in the order of [props] and numbers as [number_to_string]
    prints them: that is the text JavaScript writes for the payloads the
    handler builds, and for other data only when its numbers and the order
    of its keys are as [value] and [number_to_string] say. *)
Fixpoint JSON_stringify (v : value) : option string :=
  match v with
  | VUndefined => None
  | VNull => Some "null"
  | VBool true => Some "true"
  | VBool false => Some "false"
  | VNum n => Some (number_to_string n)
  | VStr s => Some (quote s)
  | VArr items =>
      let elem x :=
        match JSON_stringify x with
        | Some t => t
        | None => "null"
        end in
      Some ("[" ++ join "," (map elem items) ++ "]")
  | VObj props =>
      let fix members (ps : list (string * value)) : list string :=
        match ps with
        | [] => []
        | (k, x) :: rest =>
            match JSON_stringify x with
            | Some t => (quote k ++ ":" ++ t) :: members rest
            | None => members rest
            end
        end in
      Some ("{" ++ join "," (members props) ++ "}")
  end.

Example stringify_pong :
  JSON_stringify (VObj [("type", VNum 1)])
  = Some ("{" ++ String dquote "type" ++ String dquote ":1}").
Proof. reflexivity. Qed.

(** ** The Fetch API objects the worker uses *)

(** A [Headers] object: names in lower case, one entry for each name, as
    the Fetch API normalises them. *)
Definition Headers := list (string * string).

Fixpoint Headers_get (h : Headers) (name : string) : option string :=
  match h with
  | [] => None
  | (k, v) :: rest => if (k =? name)%string then Some v else Headers_get rest name
  end.

Definition Headers_has (h : Headers) (name : string) : bool :=
  match Headers_get h name with
  | Some _ => true
  | None => false
  end.

(** An inbound request: its headers and the text [request.text()] yields. *)
Record Request : Type := mkRequest {
  req_headers : Headers;
  req_text : string
}.

(** The bindings of the worker. *)
Record Env : Type := mkEnv {
  DISCORD_APPLICATION_ID : string;
  DISCORD_PUBLIC_KEY : string
}.

(** The second argument of [new Response]: the fields the worker sets. *)
Record ResponseInit : Type := mkInit {
  init_status : option Z;
  init_headers : option Headers
}.

Record Response : Type := mkResponse {
  status : Z;
  headers : Headers;
  body : option string
}.

(** [new Response(body, init)]: the status defaults to 200, and a string
    body with no [content-type] among the headers given gets the text one.
    A body of [undefined] is no body. *)
Definition new_Response (b : option string) (init : option ResponseInit) : Response :=
  let given :=
    match init with
    | Some i => match init_headers i with Some h => h | None => [] end
    | None => []
    end in
  let st :=
    match init with
    | Some i => match init_status i with Some s => s | None => 200 end
    | None => 200
    end in
  let hs :=
    match b with
    | Some _ =>
        if Headers_has given "content-type" then given
        else (given ++ [("content-type", "text/plain;charset=UTF-8")])%list
    | None => given
    end in
  {| status := st; headers := hs; body := b |}.

(** [class JsonResponse extends Response]: the body is stringified, and
    [init || {headers: ...}] keeps an [init] that is given (an object is
    truthy) and otherwise sets the JSON content type. *)
Definition JsonResponse (b : value) (init : option ResponseInit) : Response :=
  let jsonBody := JSON_stringify b in
  let init' :=
    match init with
    | Some i => i
    | None =>
        {| init_status := None;
           init_headers := Some [("content-type", "application/json;charset=UTF-8")] |}
    end in
  new_Response jsonBody (Some init').

(** ** Constants of the [discord-interactions] package *)

Module InteractionType.
Definition PING : Z := 1.
Definition APPLICATION_COMMAND : Z := 2.
Definition MESSAGE_COMPONENT : Z := 3.
Definition APPLICATION_COMMAND_AUTOCOMPLETE : Z := 4.
Definition MODAL_SUBMIT : Z := 5.
End InteractionType.

Module InteractionResponseType.
Definition PONG : Z := 1.
Definition CHANNEL_MESSAGE_WITH_SOURCE : Z := 4.
Definition DEFERRED_CHANNEL_MESSAGE_WITH_SOURCE : Z := 5.
Definition DEFERRED_UPDATE_MESSAGE : Z := 6.
Definition UPDATE_MESSAGE : Z := 7.
Definition APPLICATION_COMMAND_AUTOCOMPLETE_RESULT : Z := 8.
Definition MODAL : Z := 9.
End InteractionResponseType.

Module InteractionResponseFlags.
Definition EPHEMERAL : Z := Z.shiftl 1 6.
End InteractionResponseFlags.

Module MessageComponentTypes.
Definition ACTION_ROW : Z := 1.
Definition BUTTON : Z := 2.
Definition STRING_SELECT : Z := 3.
Definition INPUT_TEXT : Z := 4.
End MessageComponentTypes.

Module ButtonStyleTypes.
Definition PRIMARY : Z := 1.
Definition SECONDARY : Z := 2.
Definition SUCCESS : Z := 3.
Definition DANGER : Z := 4.
Definition LINK : Z := 5.
End ButtonStyleTypes.

Module TextStyleTypes.
Definition SHORT : Z := 1.
Definition PARAGRAPH : Z := 2.
End TextStyleTypes.

(** ** Effects: a trace of platform calls, and exceptions *)

Inductive event : Type :=
| EvVerifyKey (body signature timestamp key : string) (verdict : bool)
| EvJSONParse (text : string)
| EvConsoleError (msg : string).

Inductive exn : Type :=
| SyntaxError
| TypeError.

Inductive result (A : Type) : Type :=
| Return (a : A)
| Throw (e : exn).
Arguments Throw {A} e.

(** A computation: the platform calls it made, in order, and how it ended. *)
Definition M (A : Type) : Type := (list event * result A)%type.

Definition ret {A} (a : A) : M A := ([], Return a).
Definition throw {A} (e : exn) : M A := ([], Throw e).
Definition emit (ev : event) : M unit := ([ev], Return tt).

Definition bind {A B} (m : M A) (f : A -> M B) : M B :=
  match m with
  | (t, Return a) => let (t', r) := f a in ((t ++ t')%list, r)
  | (t, Throw e) => (t, Throw e)
  end.

Declare Scope js_scope.
Delimit Scope js_scope with js.
Notation "x <- m ;; k" := (bind m (fun x => k))
  (at level 100, m at next level, right associativity) : js_scope.
Notation "m ;;; k" := (bind m (fun _ => k))
  (at level 100, right associativity) : js_scope.

Definition trace {A} (m : M A) : list event := fst m.
Definition outcome {A} (m : M A) : result A := snd m.

(** [v.k] for a property name [k] that no prototype defines ([type],
    [data], [name], [custom_id]): reading it off [undefined] or [null]
    throws, an object gives its own property, and every other value gives
    [undefined]. *)
Definition get (v : value) (k : string) : M value :=
  match v with
  | VUndefined | VNull => throw TypeError
  | VObj props =>
      match assoc k props with
      | Some x => ret x
      | None => ret VUndefined
      end
  | _ => ret VUndefined
  end.

(** Is this event a call of the signature check? *)
Definition is_verifyKey_call (ev : event) : bool :=
  match ev with
  | EvVerifyKey _ _ _ _ _ => true
  | _ => false
  end.

Definition is_parse_call (ev : event) : bool :=
  match ev with
  | EvJSONParse _ => true
  | _ => false
  end.

(** The value of [v.k] where reading it does not throw. *)
Definition field (v : value) (k : string) : value :=
  match v with
  | VObj props =>
      match assoc k props with
      | Some x => x
      | None => VUndefined
      end
  | _ => VUndefined
  end.

(** The elements of an array value. *)
Definition elements (v : value) : list value :=
  match v with
  | VArr items => items
  | _ => []
  end.

(** ** The command table *)

(** An entry of [commands.js]; the server reads only its [name]. *)
Record Command : Type := mkCommand {
  name : string
}.

(** The two entries [server.js] imports from [commands.js]. *)
Class Commands : Type := mkCommands {
  AWW_COMMAND : Command;
  INVITE_COMMAND : Command
}.

(** Modelled from the spec: [commands.js] is not among the sources; the
    spec names the two commands of the table "aww" and "invite". *)
Definition spec_commands : Commands :=
  {| AWW_COMMAND := {| name := "aww" |};
     INVITE_COMMAND := {| name := "invite" |} |}.

(** ** The platform functions the server calls *)

Class Platform : Type := mkPlatform {
  (** [verifyKey] of the [discord-interactions] package, used as the truth
      value the call site takes it for. *)
  verifyKey : string -> string -> string -> string -> bool;
  (** [JSON.parse]; [None] is a thrown [SyntaxError]. *)
  JSON_parse : string -> option value;
  (** [String.prototype.toLowerCase]. *)
  toLowerCase : string -> string
}.

(** What [verifyDiscordRequest] returns: [{ isValid: false }], where
    destructuring finds [interaction] undefined, or
    [{ interaction, isValid: true }]. *)
Record Verified : Type := mkVerified {
  isValid : bool;
  interaction : value
}.

(** ** The response payloads the handler builds *)

Definition embed (title : string) : value :=
  VObj [("title", VStr title);
        ("image", VObj [("url", VStr "https://picsum.photos/200/300");
                        ("width", VNum 200);
                        ("height", VNum 300)])].

Definition button (label custom_id : string) : value :=
  VObj [("type", VNum MessageComponentTypes.BUTTON);
        ("style", VNum ButtonStyleTypes.SECONDARY);
        ("label", VStr label);
        ("custom_id", VStr custom_id)].

Definition select_option (label : string) : value :=
  VObj [("label", VStr label); ("value", VStr label)].

Definition action_row (components : list value) : value :=
  VObj [("type", VNum MessageComponentTypes.ACTION_ROW);
        ("components", VArr components)].

Definition refine_select : value :=
  VObj [("type", VNum MessageComponentTypes.STRING_SELECT);
        ("options", VArr [select_option "1"; select_option "2"; select_option "3"]);
        ("custom_id", VStr "refine");
        ("placeholder", VStr "Choose an item to refine");
        ("min_values", VNum 1);
        ("max_values", VNum 1)].

(** Lines 64-139: the message of the first command. *)
Definition aww_message : value :=
  VObj [("type", VNum InteractionResponseType.CHANNEL_MESSAGE_WITH_SOURCE);
        ("data",
         VObj [("embeds", VArr [embed "1"; embed "2"; embed "3"]);
               ("components",
                VArr [action_row [button "Next" "next"; button "Prev" "prev"];
                      action_row [refine_select]])])].

(** Lines 142-150: the invitation, a template literal around the
    application id. *)
Definition INVITE_URL (env : Env) : string :=
  "https://discord.com/oauth2/authorize?client_id="
  ++ DISCORD_APPLICATION_ID env ++ "&scope=applications.commands".

Definition invite_message (env : Env) : value :=
  VObj [("type", VNum InteractionResponseType.CHANNEL_MESSAGE_WITH_SOURCE);
        ("data",
         VObj [("content", VStr (INVITE_URL env));
               ("flags", VNum InteractionResponseFlags.EPHEMERAL)])].

Definition prompt_input : value :=
  VObj [("type", VNum MessageComponentTypes.INPUT_TEXT);
        ("custom_id", VStr "prompt");
        ("label", VStr "Prompt");
        ("style", VNum TextStyleTypes.SHORT);
        ("min_length", VNum 1);
        ("max_length", VNum 4000)].

(** Lines 160-181: the modal the "refine" component opens. *)
Definition refine_modal : value :=
  VObj [("type", VNum InteractionResponseType.MODAL);
        ("data",
         VObj [("custom_id", VStr "refine_modal");
               ("title", VStr "Refine");
               ("components", VArr [action_row [prompt_input]])])].

(** The message that echoes [JSON.stringify(interaction.data)]. *)
Definition echo_message (data : value) : value :=
  let content :=
    match JSON_stringify data with
    | Some s => VStr s
    | None => VUndefined
    end in
  VObj [("type", VNum InteractionResponseType.CHANNEL_MESSAGE_WITH_SOURCE);
        ("data", VObj [("content", content)])].

Definition pong : value := VObj [("type", VNum InteractionResponseType.PONG)].

Definition unknown_type_error : value := VObj [("error", VStr "Unknown Type")].

Definition status_only (s : Z) : ResponseInit :=
  {| init_status := Some s; init_headers := None |}.

(** Line 49. *)
Definition bad_signature_response : Response :=
  new_Response (Some "Bad request signature.") (Some (status_only 401)).

(** Lines 153 and 202. *)
Definition unknown_type_response : Response :=
  JsonResponse unknown_type_error (Some (status_only 400)).

(** ** Reading the layout of a payload *)

Definition has_type (t : Z) (v : value) : bool :=
  strict_eq_num (field v "type") t.

Definition is_object (v : value) : bool :=
  match v with
  | VObj _ => true
  | _ => false
  end.

Definition is_button (label : string) (v : value) : bool :=
  has_type MessageComponentTypes.BUTTON v && strict_eq_str (field v "label") label.

Fixpoint strings_are (expected : list string) (vs : list value) : bool :=
  match expected, vs with
  | [], [] => true
  | e :: es, v :: vs' => strict_eq_str v e && strings_are es vs'
  | _, _ => false
  end.

(** A select menu whose options have exactly these values, in order. *)
Definition is_select (values : list string) (v : value) : bool :=
  has_type MessageComponentTypes.STRING_SELECT v
  && strings_are values
       (map (fun o => field o "value") (elements (field v "options"))).

(** A short-style text input with this [custom_id]. *)
Definition is_short_input (custom_id : string) (v : value) : bool :=
  has_type MessageComponentTypes.INPUT_TEXT v
  && strict_eq_num (field v "style") TextStyleTypes.SHORT
  && strict_eq_str (field v "custom_id") custom_id.

(** The components an action row holds. *)
Definition held (row : value) : list value := elements (field row "components").

(** The top-level components of a message or modal. *)
Definition rows (data : value) : list value := elements (field data "components").

(** Some action row of [data] holds a "Next" button, a "Prev" button and
    a select menu with options 1, 2, 3. *)
Definition one_row_holds_buttons_and_select (data : value) : bool :=
  existsb
    (fun row =>
       has_type MessageComponentTypes.ACTION_ROW row
       && existsb (is_button "Next") (held row)
       && existsb (is_button "Prev") (held row)
       && existsb (is_select ["1"; "2"; "3"]) (held row))
    (rows data).

(** [data] has two action rows: the first holds exactly the "Next" and
    "Prev" buttons, the second exactly a select menu with options 1, 2, 3. *)
Definition buttons_row_then_select_row (data : value) : bool :=
  match rows data with
  | [r1; r2] =>
      has_type MessageComponentTypes.ACTION_ROW r1
      && match held r1 with
         | [b1; b2] => is_button "Next" b1 && is_button "Prev" b2
         | _ => false
         end
      && has_type MessageComponentTypes.ACTION_ROW r2
      && match held r2 with
         | [sel] => is_select ["1"; "2"; "3"] sel
         | _ => false
         end
  | _ => false
  end.

(** [url] contains [part]. *)
Definition contains (url part : string) : Prop :=
  exists before after, url = before ++ part ++ after.

(** ** A runtime to execute the server on concrete requests

    The server is stated over any [verifyKey], [JSON.parse] and
    [toLowerCase]. The functions below are one choice of them, with which
    the handler evaluates inside Rocq. *)

Module Runtime.

(** [toLowerCase] on text whose letters are ASCII. *)
Definition lower_char (c : ascii) : ascii :=
  let n := N_of_ascii c in
  if ((65 <=? n) && (n <=? 90))%N then ascii_of_N (n + 32) else c.

Fixpoint toLowerCase (s : string) : string :=
  match s with
  | EmptyString => EmptyString
  | String c rest => String (lower_char c) (toLowerCase rest)
  end.

(** Two texts that differ at most in the case of ASCII letters. *)
Fixpoint same_ignoring_case (s t : string) : bool :=
  match s, t with
  | EmptyString, EmptyString => true
  | String c s', String d t' =>
      Ascii.eqb (lower_char c) (lower_char d) && same_ignoring_case s' t'
  | _, _ => false
  end.

(** A signature scheme with the interface of [verifyKey]: the signature
    of a message (timestamp, then body) under a key is the key, a colon
    and the message. It is not Ed25519; it only decides which concrete
    requests count as signed. *)
Definition sign (key timestamp body : string) : string :=
  key ++ ":" ++ timestamp ++ body.

Definition verifyKey (body signature timestamp key : string) : bool :=
  (signature =? sign key timestamp body)%string.

(** *** A reader for JSON texts with integer numerals *)

Definition is_ws (c : ascii) : bool :=
  let n := N_of_ascii c in
  ((n =? 32) || (n =? 9) || (n =? 10) || (n =? 13))%N.

Fixpoint skip_ws (s : string) : string :=
  match s with
  | String c rest => if is_ws c then skip_ws rest else s
  | EmptyString => s
  end.

Definition is_digit (c : ascii) : bool :=
  let n := N_of_ascii c in ((48 <=? n) && (n <=? 57))%N.

Definition digit_value (c : ascii) : Z := Z.of_N (N_of_ascii c) - 48.

(** The characters of a string literal after its opening quote, up to
    the closing one. The [\u] escape is not read. *)
Fixpoint read_string (s : string) : option (string * string) :=
  match s with
  | EmptyString => None
  | String c rest =>
      if Ascii.eqb c dquote then Some (EmptyString, rest)
      else if Ascii.eqb c "\"%char then
        match rest with
        | String e rest' =>
            let unescaped :=
              if Ascii.eqb e dquote then Some dquote
              else if Ascii.eqb e "\"%char then Some "\"%char
              else if Ascii.eqb e "/"%char then Some "/"%char
              else if Ascii.eqb e "b"%char then Some (ascii_of_nat 8)
              else if Ascii.eqb e "f"%char then Some (ascii_of_nat 12)
              else if Ascii.eqb e "n"%char then Some (ascii_of_nat 10)
              else if Ascii.eqb e "r"%char then Some (ascii_of_nat 13)
              else if Ascii.eqb e "t"%char then Some (ascii_of_nat 9)
              else None in
            match unescaped, read_string rest' with
            | Some u, Some (t, r) => Some (String u t, r)
            | _, _ => None
            end
        | EmptyString => None
        end
      else if (N_of_ascii c <? 32)%N then None
      else
        match read_string rest with
        | Some (t, r) => Some (String c t, r)
        | None => None
        end
  end.

Fixpoint read_digits (acc : Z) (s : string) : Z * string :=
  match s with
  | String c rest =>
      if is_digit c then read_digits (10 * acc + digit_value c) rest
      else (acc, s)
  | EmptyString => (acc, s)
  end.

(** An integer numeral: no leading zero, no fraction, no exponent. *)
Definition read_natural (s : string) : option (Z * string) :=
  match s with
  | String c rest =>
      if Ascii.eqb c "0"%char then
        match rest with
        | String d _ => if is_digit d then None else Some (0, rest)
        | EmptyString => Some (0, rest)
        end
      else if is_digit c then Some (read_digits 0 s)
      else None
  | EmptyString => None
  end.

Definition ends_numeral (s : string) : bool :=
  match s with
  | String c _ =>
      negb (Ascii.eqb c "."%char || Ascii.eqb c "e"%char || Ascii.eqb c "E"%char)
  | EmptyString => true
  end.

Fixpoint strip_prefix (p s : string) : option string :=
  match p, s with
  | EmptyString, _ => Some s
  | String a p', String b s' => if Ascii.eqb a b then strip_prefix p' s' else None
  | String _ _, EmptyString => None
  end.

(** A repeated key keeps its place and takes the later value. *)
Fixpoint set_prop (k : string) (v : value) (props : list (string * value))
  : list (string * value) :=
  match props with
  | [] => [(k, v)]
  | (k', v') :: rest =>
      if (k' =? k)%string then (k, v) :: rest else (k', v') :: set_prop k v rest
  end.

Fixpoint read_value (fuel : nat) (s : string) : option (value * string) :=
  match fuel with
  | O => None
  | S fuel' =>
      match skip_ws s with
      | EmptyString => None
      | String c rest =>
          if Ascii.eqb c "{"%char then
            match skip_ws rest with
            | String d rest' =>
                if Ascii.eqb d "}"%char then Some (VObj [], rest')
                else read_members fuel' [] rest
            | EmptyString => None
            end
          else if Ascii.eqb c "["%char then
            match skip_ws rest with
            | String d rest' =>
                if Ascii.eqb d "]"%char then Some (VArr [], rest')
                else read_elements fuel' [] rest
            | EmptyString => None
            end
          else if Ascii.eqb c dquote then
            match read_string rest with
            | Some (t, r) => Some (VStr t, r)
            | None => None
            end
          else if Ascii.eqb c "-"%char then
            match read_natural rest with
            | Some (n, r) => if ends_numeral r then Some (VNum (- n), r) else None
            | None => None
            end
          else if is_digit c then
            match read_natural (String c rest) with
            | Some (n, r) => if ends_numeral r then Some (VNum n, r) else None
            | None => None
            end
          else
            match strip_prefix "true" (String c rest) with
            | Some r => Some (VBool true, r)
            | None =>
                match strip_prefix "false" (String c rest) with
                | Some r => Some (VBool false, r)
                | None =>
                    match strip_prefix "null" (String c rest) with
                    | Some r => Some (VNull, r)
                    | None => None
                    end
                end
            end
      end
  end
with read_elements (fuel : nat) (acc : list value) (s : string)
  : option (value * string) :=
  match fuel with
  | O => None
  | S fuel' =>
      match read_value fuel' s with
      | Some (v, r) =>
          match skip_ws r with
          | String c r' =>
              if Ascii.eqb c ","%char then read_elements fuel' (acc ++ [v])%list r'
              else if Ascii.eqb c "]"%char then Some (VArr (acc ++ [v])%list, r')
              else None
          | EmptyString => None
          end
      | None => None
      end
  end
with read_members (fuel : nat) (acc : list (string * value)) (s : string)
  : option (value * string) :=
  match fuel with
  | O => None
  | S fuel' =>
      match skip_ws s with
      | String q s1 =>
          if Ascii.eqb q dquote then
            match read_string s1 with
            | Some (k, s2) =>
                match skip_ws s2 with
                | String c s3 =>
                    if Ascii.eqb c ":"%char then
                      match read_value fuel' s3 with
                      | Some (v, r) =>
                          match skip_ws r with
                          | String e r' =>
                              if Ascii.eqb e ","%char then
                                read_members fuel' (set_prop k v acc) r'
                              else if Ascii.eqb e "}"%char then
                                Some (VObj (set_prop k v acc), r')
                              else None
                          | EmptyString => None
                          end
                      | None => None
                      end
                    else None
                | EmptyString => None
                end
            | None => None
            end
          else None
      | EmptyString => None
      end
  end.

(** [JSON.parse]: one value, then only white space. Every nested call
    reads at least one character, so twice the length is fuel enough. *)
Definition JSON_parse (text : string) : option value :=
  match read_value (2 * String.length text + 2) text with
  | Some (v, r) =>
      match skip_ws r with
      | EmptyString => Some v
      | String _ _ => None
      end
  | None => None
  end.

(** Writes a text with apostrophes where the JSON text has double
    quotes: [json "{'type':1}"]. *)
Fixpoint json (s : string) : string :=
  match s with
  | EmptyString => EmptyString
  | String c rest =>
      String (if Ascii.eqb c "'"%char then dquote else c) (json rest)
  end.

End Runtime.

Definition runtime_platform : Platform :=
  {| verifyKey := Runtime.verifyKey;
     JSON_parse := Runtime.JSON_parse;
     toLowerCase := Runtime.toLowerCase |}.

(** ** The server *)

Section Server.

Context {platform : Platform} {commands : Commands}.

Local Open Scope js_scope.

Definition call_verifyKey (body signature timestamp key : string) : M bool :=
  let verdict := verifyKey body signature timestamp key in
  emit (EvVerifyKey body signature timestamp key verdict) ;;;
  ret verdict.

Definition call_JSON_parse (text : string) : M value :=
  emit (EvJSONParse text) ;;;
  match JSON_parse text with
  | Some v => ret v
  | None => throw SyntaxError
  end.

Definition console_error (msg : string) : M unit := emit (EvConsoleError msg).

(** [v.toLowerCase()]: only a string has the method; on anything else
    the call throws. *)
Definition call_toLowerCase (v : value) : M string :=
  match v with
  | VStr s => ret (toLowerCase s)
  | _ => throw TypeError
  end.

(** Lines 206-219. The [&&] chain stops at the first falsy operand, so
    [verifyKey] runs only when both headers are non-empty strings. *)
Definition verifyDiscordRequest (request : Request) (env : Env) : M Verified :=
  let signature := Headers_get (req_headers request) "x-signature-ed25519" in
  let timestamp := Headers_get (req_headers request) "x-signature-timestamp" in
  let body := req_text request in
  isValidRequest <-
    match signature with
    | None => ret false
    | Some sig =>
        if (sig =? "")%string then ret false
        else
          match timestamp with
          | None => ret false
          | Some ts =>
              if (ts =? "")%string then ret false
              else call_verifyKey body sig ts (DISCORD_PUBLIC_KEY env)
          end
    end ;;
  if negb isValidRequest then
    ret {| isValid := false; interaction := VUndefined |}
  else
    parsed <- call_JSON_parse body ;;
    ret {| interaction := parsed; isValid := true |}.

(** Lines 52-202: the dispatch on [interaction.type]. *)
Definition dispatch (interaction : value) (env : Env) : M Response :=
  type <- get interaction "type" ;;
  if strict_eq_num type InteractionType.PING then
    ret (JsonResponse pong None)
  else if strict_eq_num type InteractionType.APPLICATION_COMMAND then
    data <- get interaction "data" ;;
    nm <- get data "name" ;;
    lowered <- call_toLowerCase nm ;;
    if (lowered =? toLowerCase (name AWW_COMMAND))%string then
      ret (JsonResponse aww_message None)
    else if (lowered =? toLowerCase (name INVITE_COMMAND))%string then
      ret (JsonResponse (invite_message env) None)
    else
      ret unknown_type_response
  else if strict_eq_num type InteractionType.MESSAGE_COMPONENT then
    data <- get interaction "data" ;;
    custom_id <- get data "custom_id" ;;
    if strict_eq_str custom_id "refine" then
      ret (JsonResponse refine_modal None)
    else
      ret (JsonResponse (echo_message data) None)
  else if strict_eq_num type InteractionType.MODAL_SUBMIT then
    data <- get interaction "data" ;;
    ret (JsonResponse (echo_message data) None)
  else
    console_error "Unknown Type" ;;;
    ret unknown_type_response.

(** Lines 44-50: the guard in front of the handler's body, which is
    the continuation [k]. *)
Definition guarded (k : value -> Env -> M Response)
    (request : Request) (env : Env) : M Response :=
  v <- verifyDiscordRequest request env ;;
  if negb (isValid v) || negb (truthy (interaction v)) then
    ret bad_signature_response
  else
    k (interaction v) env.

(** Lines 43-203: [router.post('/')]. *)
Definition router_post (request : Request) (env : Env) : M Response :=
  guarded dispatch request env.

(** Line 204: every other route. *)
Definition router_all : Response :=
  new_Response (Some "Not Found.") (Some (status_only 404)).

(** *** Vocabulary of the properties *)

(** The signed request envelope passes verification: both signature
    headers are there and not empty, and [verifyKey] accepts the body
    under the configured public key. *)
Definition envelope_verified (request : Request) (env : Env) : bool :=
  match Headers_get (req_headers request) "x-signature-ed25519",
        Headers_get (req_headers request) "x-signature-timestamp" with
  | Some sig, Some ts =>
      negb (sig =? "")%string && negb (ts =? "")%string
      && verifyKey (req_text request) sig ts (DISCORD_PUBLIC_KEY env)
  | _, _ => false
  end.

(** [i] is what the verifier hands back for [request]: the envelope
    passes and the body parses to [i]. *)
Definition parsed_from (request : Request) (env : Env) (i : value) : Prop :=
  envelope_verified request env = true /\ JSON_parse (req_text request) = Some i.

(** [i] is the verified interaction of [request]: it passes the guard of
    line 48, that is, the verifier hands it back and it is truthy. *)
Definition verified_interaction (request : Request) (env : Env) (i : value) : Prop :=
  parsed_from request env i /\ truthy i = true.

(** An [APPLICATION_COMMAND] interaction whose [data.name] is [s]. *)
Definition command_named (i : value) (s : string) : Prop :=
  field i "type" = VNum InteractionType.APPLICATION_COMMAND
  /\ field (field i "data") "name" = VStr s.

(** [interaction.type] is none of the four discriminants the handler
    knows. *)
Definition unknown_discriminant (i : value) : bool :=
  negb (strict_eq_num (field i "type") InteractionType.PING)
  && negb (strict_eq_num (field i "type") InteractionType.APPLICATION_COMMAND)
  && negb (strict_eq_num (field i "type") InteractionType.MESSAGE_COMPONENT)
  && negb (strict_eq_num (field i "type") InteractionType.MODAL_SUBMIT).

(** A command interaction whose name, lowered, is neither command's. *)
Definition unknown_command (i : value) : Prop :=
  exists s, command_named i s
    /\ toLowerCase s <> toLowerCase (name AWW_COMMAND)
    /\ toLowerCase s <> toLowerCase (name INVITE_COMMAND).

(** The response of the command switch on the lowered name. *)
Definition command_response (env : Env) (lowered : string) : Response :=
  if (lowered =? toLowerCase (name AWW_COMMAND))%string then
    JsonResponse aww_message None
  else if (lowered =? toLowerCase (name INVITE_COMMAND))%string then
    JsonResponse (invite_message env) None
  else unknown_type_response.

Definition not_verified : Verified := {| isValid := false; interaction := VUndefined |}.


(** The trace of a verification that reached [JSON.parse]. *)
Definition accepted_trace (request : Request) (env : Env) : list event :=
  match Headers_get (req_headers request) "x-signature-ed25519",
        Headers_get (req_headers request) "x-signature-timestamp" with
  | Some sig, Some ts =>
      [EvVerifyKey (req_text request) sig ts (DISCORD_PUBLIC_KEY env) true;
       EvJSONParse (req_text request)]
  | _, _ => []
  end.

(** The trace of a verification that failed: at most the one call of
    [verifyKey] that said no. *)
Definition rejected_trace (request : Request) (env : Env) : list event :=
  match Headers_get (req_headers request) "x-signature-ed25519",
        Headers_get (req_headers request) "x-signature-timestamp" with
  | Some sig, Some ts =>
      if negb (sig =? "")%string && negb (ts =? "")%string then
        [EvVerifyKey (req_text request) sig ts (DISCORD_PUBLIC_KEY env) false]
      else []
  | _, _ => []
  end.

(** The request with another body under the same headers. *)
Definition with_body (request : Request) (altered : string) : Request :=
  {| req_headers := req_headers request; req_text := altered |}.

End Server.

(** ** Concrete requests *)

Module Sample.

Definition env : Env :=
  {| DISCORD_APPLICATION_ID := "1234567890"; DISCORD_PUBLIC_KEY := "pk" |}.

(** A request whose body is signed for [env] under the runtime's scheme. *)
Definition signed (body : string) : Request :=
  {| req_headers :=
       [("x-signature-ed25519", Runtime.sign "pk" "1700000000" body);
        ("x-signature-timestamp", "1700000000")];
     req_text := body |}.

(** A request that carries no signature headers. *)
Definition unsigned (body : string) : Request :=
  {| req_headers := [("content-type", "application/json")]; req_text := body |}.

(** The handler on the runtime, with the spec's command table. *)
Definition run (request : Request) : M Response :=
  @router_post runtime_platform spec_commands request env.

Definition verify (request : Request) : M Verified :=
  @verifyDiscordRequest runtime_platform request env.

(** The JSON value a response carries in its body. *)
Definition payload_of (m : M Response) : option value :=
  match outcome m with
  | Return r =>
      match body r with
      | Some text => Runtime.JSON_parse text
      | None => None
      end
  | Throw _ => None
  end.

End Sample.

(** * Properties *)

Section Properties.

Context {platform : Platform} {commands : Commands}.

Local Open Scope js_scope.

(** *** How the verifier and the guard run *)

Lemma get_field (v : value) (k : string) :
  v <> VUndefined -> v <> VNull -> get v k = ret (field v k).
Proof.
  intros Hu Hn. destruct v; try reflexivity; try congruence.
  simpl. destruct (assoc k props); reflexivity.
Qed.

Lemma truthy_get (v : value) (k : string) :
  truthy v = true -> get v k = ret (field v k).
Proof.
  intro Ht. apply get_field; intro E; subst v; discriminate.
Qed.

Lemma field_defined_get (v : value) (k k' : string) :
  field v k <> VUndefined -> get v k' = ret (field v k').
Proof.
  intro Hf. apply get_field; intro E; subst v; apply Hf; reflexivity.
Qed.

Lemma verify_rejected (request : Request) (env : Env) :
  envelope_verified request env = false ->
  verifyDiscordRequest request env = (rejected_trace request env, Return not_verified).
Proof.
  unfold envelope_verified, verifyDiscordRequest, rejected_trace, call_verifyKey.
  destruct (Headers_get (req_headers request) "x-signature-ed25519") as [sig|];
    [|reflexivity].
  destruct (Headers_get (req_headers request) "x-signature-timestamp") as [ts|];
    [|destruct (sig =? "")%string; reflexivity].
  destruct (sig =? "")%string; [reflexivity|].
  destruct (ts =? "")%string; [reflexivity|].
  simpl. intros ->. reflexivity.
Qed.

Lemma verify_accepted (request : Request) (env : Env) :
  envelope_verified request env = true ->
  verifyDiscordRequest request env =
  (accepted_trace request env,
   match JSON_parse (req_text request) with
   | Some i => Return {| isValid := true; interaction := i |}
   | None => Throw SyntaxError
   end).
Proof.
  unfold envelope_verified, verifyDiscordRequest, accepted_trace,
    call_verifyKey, call_JSON_parse.
  destruct (Headers_get (req_headers request) "x-signature-ed25519") as [sig|];
    [|discriminate].
  destruct (Headers_get (req_headers request) "x-signature-timestamp") as [ts|];
    [|discriminate].
  destruct (sig =? "")%string; [discriminate|].
  destruct (ts =? "")%string; [discriminate|].
  simpl. intros ->. simpl.
  destruct (JSON_parse (req_text request)); reflexivity.
Qed.

Lemma rejected_trace_no_parse (request : Request) (env : Env) :
  existsb is_parse_call (rejected_trace request env) = false.
Proof.
  unfold rejected_trace.
  destruct (Headers_get _ "x-signature-ed25519"); [|reflexivity].
  destruct (Headers_get _ "x-signature-timestamp"); [|reflexivity].
  destruct (negb _ && negb _); reflexivity.
Qed.

Lemma guarded_rejected (k : value -> Env -> M Response)
    (request : Request) (env : Env) :
  envelope_verified request env = false ->
  guarded k request env = (rejected_trace request env, Return bad_signature_response).
Proof.
  intro H. unfold guarded. rewrite (verify_rejected _ _ H).
  simpl. rewrite app_nil_r. reflexivity.
Qed.

Lemma guarded_accepted (k : value -> Env -> M Response)
    (request : Request) (env : Env) (i : value) :
  parsed_from request env i ->
  guarded k request env =
  if truthy i then
    ((accepted_trace request env ++ trace (k i env))%list, outcome (k i env))
  else (accepted_trace request env, Return bad_signature_response).
Proof.
  intros [Hv Hp]. unfold guarded. rewrite (verify_accepted _ _ Hv), Hp.
  simpl. destruct (truthy i); simpl.
  - destruct (k i env) as [t r]. reflexivity.
  - rewrite app_nil_r. reflexivity.
Qed.

Lemma guarded_unparsed (k : value -> Env -> M Response)
    (request : Request) (env : Env) :
  envelope_verified request env = true ->
  JSON_parse (req_text request) = None ->
  guarded k request env = (accepted_trace request env, Throw SyntaxError).
Proof.
  intros Hv Hp. unfold guarded. rewrite (verify_accepted _ _ Hv), Hp.
  reflexivity.
Qed.

(** *** How the dispatch runs *)

Lemma bind_ret_l {A B} (a : A) (f : A -> M B) : bind (ret a) f = f a.
Proof. unfold bind, ret. destruct (f a). reflexivity. Qed.

Lemma router_post_accepted (request : Request) (env : Env) (i : value) :
  parsed_from request env i ->
  truthy i = true ->
  router_post request env =
  ((accepted_trace request env ++ trace (dispatch i env))%list,
   outcome (dispatch i env)).
Proof.
  intros Hv Ht. unfold router_post.
  rewrite (guarded_accepted dispatch Hv), Ht. reflexivity.
Qed.

Lemma field_truthy (v : value) (k : string) :
  field v k <> VUndefined -> truthy v = true.
Proof.
  destruct v; simpl; intro H; try reflexivity; exfalso; apply H; reflexivity.
Qed.

Lemma dispatch_ping (i : value) (env : Env) :
  field i "type" = VNum InteractionType.PING ->
  dispatch i env = ret (JsonResponse pong None).
Proof.
  intro Hty. unfold dispatch.
  rewrite (@field_defined_get i "type" "type") by (rewrite Hty; discriminate).
  rewrite bind_ret_l, Hty. reflexivity.
Qed.

Lemma dispatch_command (i : value) (env : Env) (s : string) :
  field i "type" = VNum InteractionType.APPLICATION_COMMAND ->
  field (field i "data") "name" = VStr s ->
  dispatch i env = ret (command_response env (toLowerCase s)).
Proof.
  intros Hty Hname. unfold dispatch, command_response.
  rewrite (@field_defined_get i "type" "type") by (rewrite Hty; discriminate).
  rewrite bind_ret_l, Hty. simpl strict_eq_num. cbv iota.
  rewrite (@field_defined_get i "type" "data") by (rewrite Hty; discriminate).
  rewrite bind_ret_l.
  rewrite (@field_defined_get (field i "data") "name" "name")
    by (rewrite Hname; discriminate).
  rewrite bind_ret_l, Hname. unfold call_toLowerCase. rewrite bind_ret_l.
  destruct (toLowerCase s =? toLowerCase (name AWW_COMMAND))%string;
    [reflexivity|].
  destruct (toLowerCase s =? toLowerCase (name INVITE_COMMAND))%string;
    reflexivity.
Qed.

Lemma dispatch_refine (i : value) (env : Env) :
  field i "type" = VNum InteractionType.MESSAGE_COMPONENT ->
  field (field i "data") "custom_id" = VStr "refine" ->
  dispatch i env = ret (JsonResponse refine_modal None).
Proof.
  intros Hty Hid. unfold dispatch.
  rewrite (@field_defined_get i "type" "type") by (rewrite Hty; discriminate).
  rewrite bind_ret_l, Hty. simpl strict_eq_num. cbv iota.
  rewrite (@field_defined_get i "type" "data") by (rewrite Hty; discriminate).
  rewrite bind_ret_l.
  rewrite (@field_defined_get (field i "data") "custom_id" "custom_id")
    by (rewrite Hid; discriminate).
  rewrite bind_ret_l, Hid. reflexivity.
Qed.

Lemma dispatch_unknown (i : value) (env : Env) :
  truthy i = true ->
  unknown_discriminant i = true ->
  dispatch i env = ([EvConsoleError "Unknown Type"], Return unknown_type_response).
Proof.
  intros Ht Hu. unfold dispatch. rewrite truthy_get by exact Ht. rewrite bind_ret_l.
  unfold unknown_discriminant in Hu.
  repeat (apply andb_prop in Hu; destruct Hu as [Hu ?]).
  repeat match goal with
         | H : negb _ = true |- _ => apply negb_true_iff in H; rewrite H
         end.
  reflexivity.
Qed.

Lemma router_post_verified (request : Request) (env : Env) (i : value) :
  verified_interaction request env i ->
  outcome (router_post request env) = outcome (dispatch i env).
Proof.
  intros [Hp Ht]. rewrite (router_post_accepted Hp Ht). reflexivity.
Qed.

Lemma command_named_truthy (i : value) (s : string) :
  command_named i s -> truthy i = true.
Proof.
  intros [Hty _]. apply (@field_truthy i "type"). rewrite Hty. discriminate.
Qed.


(** *** The properties of the specification *)

(** C1. The interaction is acted upon only after its envelope passes
    verification. When the envelope fails, the guard answers 401 whatever
    code follows it, and the body is never parsed; the code after the
    guard is run on nothing but the value the verifier hands back; a parse
    in the trace means the envelope passed; and every answer other than a
    401 is the dispatch of a verified interaction. *)
Theorem interaction_only_after_verification (request : Request) (env : Env) :
  (envelope_verified request env = false ->
   (forall k, guarded k request env
              = (rejected_trace request env, Return bad_signature_response))
   /\ router_post request env
      = (rejected_trace request env, Return bad_signature_response)
   /\ existsb is_parse_call (rejected_trace request env) = false)
  /\ (forall k k',
        (forall i, verified_interaction request env i -> k i env = k' i env) ->
        guarded k request env = guarded k' request env)
  /\ (existsb is_parse_call (trace (router_post request env)) = true ->
      envelope_verified request env = true)
  /\ (forall r,
        outcome (router_post request env) = Return r ->
        status r <> 401 ->
        exists i, verified_interaction request env i
                  /\ outcome (dispatch i env) = Return r).
Proof.
  destruct (envelope_verified request env) eqn:Hv.
  - split; [discriminate|]. split; [|split; [reflexivity|]].
    + intros k k' Hk.
      destruct (JSON_parse (req_text request)) as [i|] eqn:Hp.
      * assert (Hpf : parsed_from request env i) by (split; assumption).
        rewrite (guarded_accepted k Hpf), (guarded_accepted k' Hpf).
        destruct (truthy i) eqn:Ht; [|reflexivity].
        rewrite (Hk i) by (split; assumption). reflexivity.
      * rewrite (guarded_unparsed k _ _ Hv Hp), (guarded_unparsed k' _ _ Hv Hp).
        reflexivity.
    + intros r Hr Hs. unfold router_post in Hr.
      destruct (JSON_parse (req_text request)) as [i|] eqn:Hp.
      * assert (Hpf : parsed_from request env i) by (split; assumption).
        rewrite (guarded_accepted dispatch Hpf) in Hr.
        destruct (truthy i) eqn:Ht.
        -- exists i. split; [split; assumption|exact Hr].
        -- simpl in Hr. injection Hr as <-. exfalso. apply Hs. reflexivity.
      * rewrite (guarded_unparsed dispatch _ _ Hv Hp) in Hr. discriminate.
  - split; [|split; [|split]].
    + intros _. split; [|split].
      * intro k. apply guarded_rejected. exact Hv.
      * apply (guarded_rejected dispatch). exact Hv.
      * apply rejected_trace_no_parse.
    + intros k k' _.
      rewrite (guarded_rejected k _ _ Hv), (guarded_rejected k' _ _ Hv).
      reflexivity.
    + unfold router_post. rewrite (guarded_rejected dispatch _ _ Hv).
      unfold trace. simpl fst. rewrite rejected_trace_no_parse. discriminate.
    + intros r Hr Hs. unfold router_post in Hr.
      rewrite (guarded_rejected dispatch _ _ Hv) in Hr.
      simpl in Hr. injection Hr as <-. exfalso. apply Hs. reflexivity.
Qed.


(** C3. A request that lacks the [x-signature-ed25519] header or the
    [x-signature-timestamp] header is reported not valid, and the trace of
    the verifier holds no call of [verifyKey]. *)
Theorem missing_header_fails_without_verifyKey (request : Request) (env : Env) :
  Headers_get (req_headers request) "x-signature-ed25519" = None
  \/ Headers_get (req_headers request) "x-signature-timestamp" = None ->
  outcome (verifyDiscordRequest request env) = Return not_verified
  /\ isValid not_verified = false
  /\ existsb is_verifyKey_call (trace (verifyDiscordRequest request env)) = false.
Proof.
  intro Hmiss.
  assert (Hv : envelope_verified request env = false).
  { unfold envelope_verified. destruct Hmiss as [-> | ->]; [reflexivity|].
    destruct (Headers_get _ "x-signature-ed25519"); reflexivity. }
  rewrite (verify_rejected _ _ Hv). split; [reflexivity|]. split; [reflexivity|].
  unfold trace, rejected_trace. simpl fst.
  destruct Hmiss as [-> | ->]; [reflexivity|].
  destruct (Headers_get _ "x-signature-ed25519"); reflexivity.
Qed.

(** C4. A verified interaction of type [PING] is answered with status 200
    and the JSON body [{"type":1}]: the payload is the object whose only
    property is [type], with the value [PONG]. *)
Theorem ping_is_acknowledged (request : Request) (env : Env) (i : value) :
  verified_interaction request env i ->
  field i "type" = VNum InteractionType.PING ->
  exists r,
    outcome (router_post request env) = Return r
    /\ status r = 200
    /\ body r = JSON_stringify (VObj [("type", VNum InteractionResponseType.PONG)])
    /\ body r = Some (Runtime.json "{'type':1}")
    /\ Headers_get (headers r) "content-type"
       = Some "application/json;charset=UTF-8".
Proof.
  intros Hv Hty. exists (JsonResponse pong None).
  rewrite (router_post_verified Hv), (dispatch_ping i env Hty).
  repeat split.
Qed.

(** C5. The command lookup ignores case: a verified command interaction
    whose name equals a known command's name once both are lowered gets
    the response that the interaction with the command's own name gets,
    a message with status 200. *)
Theorem command_lookup_ignores_case
    (request request' : Request) (env : Env) (i i' : value)
    (s : string) (c : Command) :
  c = AWW_COMMAND \/ c = INVITE_COMMAND ->
  toLowerCase s = toLowerCase (name c) ->
  verified_interaction request env i -> command_named i s ->
  verified_interaction request' env i' -> command_named i' (name c) ->
  outcome (router_post request env) = outcome (router_post request' env)
  /\ exists r, outcome (router_post request env) = Return r /\ status r = 200.
Proof.
  intros Hc Hlow Hv [Hty Hn] Hv' [Hty' Hn'].
  rewrite (router_post_verified Hv), (router_post_verified Hv').
  rewrite (dispatch_command i env Hty Hn), (dispatch_command i' env Hty' Hn'), Hlow.
  split; [reflexivity|].
  exists (command_response env (toLowerCase (name c))). split; [reflexivity|].
  unfold command_response. destruct Hc as [-> | ->].
  - rewrite String.eqb_refl. reflexivity.
  - destruct (_ =? _)%string; [reflexivity|].
    rewrite String.eqb_refl. reflexivity.
Qed.

(** C6, as amended. A verified command interaction that names the first
    command is answered with a message of exactly three embed objects and
    two action rows: the first holds the "Next" and "Prev" buttons, the
    second a select menu with the options 1, 2, 3. *)
Theorem aww_has_three_embeds_and_two_rows
    (request : Request) (env : Env) (i : value) (s : string) :
  verified_interaction request env i ->
  command_named i s ->
  toLowerCase s = toLowerCase (name AWW_COMMAND) ->
  outcome (router_post request env) = Return (JsonResponse aww_message None)
  /\ status (JsonResponse aww_message None) = 200
  /\ body (JsonResponse aww_message None) = JSON_stringify aww_message
  /\ List.length (elements (field (field aww_message "data") "embeds")) = 3%nat
  /\ forallb is_object (elements (field (field aww_message "data") "embeds")) = true
  /\ buttons_row_then_select_row (field aww_message "data") = true.
Proof.
  intros Hv [Hty Hn] Hlow.
  rewrite (router_post_verified Hv), (dispatch_command i env Hty Hn), Hlow.
  unfold command_response. rewrite String.eqb_refl.
  repeat split.
Qed.

(** C7. A verified command interaction that names the invite command,
    whose lowered name is not the first command's, is answered with a
    message whose content is a URL that contains [client_id=] followed by
    the configured application id, and whose flags are [EPHEMERAL]. *)
Theorem invite_links_the_application
    (request : Request) (env : Env) (i : value) (s : string) :
  verified_interaction request env i ->
  command_named i s ->
  toLowerCase s = toLowerCase (name INVITE_COMMAND) ->
  toLowerCase (name INVITE_COMMAND) <> toLowerCase (name AWW_COMMAND) ->
  outcome (router_post request env) = Return (JsonResponse (invite_message env) None)
  /\ status (JsonResponse (invite_message env) None) = 200
  /\ body (JsonResponse (invite_message env) None)
     = JSON_stringify (invite_message env)
  /\ (exists url rest,
        field (field (invite_message env) "data") "content" = VStr url
        /\ url = "https://" ++ rest
        /\ contains url ("client_id=" ++ DISCORD_APPLICATION_ID env))
  /\ field (field (invite_message env) "data") "flags"
     = VNum InteractionResponseFlags.EPHEMERAL
  /\ InteractionResponseFlags.EPHEMERAL = 64.
Proof.
  intros Hv [Hty Hn] Hlow Hdiff.
  rewrite (router_post_verified Hv), (dispatch_command i env Hty Hn), Hlow.
  unfold command_response.
  apply String.eqb_neq in Hdiff. rewrite Hdiff, String.eqb_refl.
  split; [reflexivity|]. split; [reflexivity|]. split; [reflexivity|].
  split; [|split; reflexivity].
  exists (INVITE_URL env). eexists. split; [reflexivity|]. split.
  - unfold INVITE_URL. simpl. reflexivity.
  - exists "https://discord.com/oauth2/authorize?", "&scope=applications.commands".
    unfold INVITE_URL. simpl. reflexivity.
Qed.

(** C8. A verified [MESSAGE_COMPONENT] interaction whose [data.custom_id]
    is "refine" is answered with a response of type [MODAL] whose rows hold
    exactly one component, a short-style text input with the [custom_id]
    "prompt". *)
Theorem refine_opens_prompt_modal (request : Request) (env : Env) (i : value) :
  verified_interaction request env i ->
  field i "type" = VNum InteractionType.MESSAGE_COMPONENT ->
  field (field i "data") "custom_id" = VStr "refine" ->
  outcome (router_post request env) = Return (JsonResponse refine_modal None)
  /\ status (JsonResponse refine_modal None) = 200
  /\ body (JsonResponse refine_modal None) = JSON_stringify refine_modal
  /\ has_type InteractionResponseType.MODAL refine_modal = true
  /\ exists input,
       flat_map held (rows (field refine_modal "data")) = [input]
       /\ is_short_input "prompt" input = true.
Proof.
  intros Hv Hty Hid.
  rewrite (router_post_verified Hv), (dispatch_refine i env Hty Hid).
  repeat split. exists prompt_input. split; reflexivity.
Qed.

(** C9, as amended. A verified command interaction whose name is a
    string that matches no known command, and a verified interaction whose type is none of [PING],
    [APPLICATION_COMMAND], [MESSAGE_COMPONENT] and [MODAL_SUBMIT], are
    answered with status 400 and the JSON body [{"error":"Unknown Type"}];
    the second case is logged with [console.error]. *)
Theorem unknown_is_400 (request : Request) (env : Env) (i : value) :
  verified_interaction request env i ->
  unknown_command i \/ unknown_discriminant i = true ->
  outcome (router_post request env) = Return unknown_type_response
  /\ status unknown_type_response = 400
  /\ body unknown_type_response = JSON_stringify (VObj [("error", VStr "Unknown Type")])
  /\ body unknown_type_response = Some (Runtime.json "{'error':'Unknown Type'}")
  /\ (unknown_discriminant i = true ->
      In (EvConsoleError "Unknown Type") (trace (router_post request env))).
Proof.
  intros Hv Hunk.
  assert (Hout : outcome (router_post request env) = Return unknown_type_response).
  { rewrite (router_post_verified Hv). destruct Hunk as [[s [[Hty Hn] [Ha Hi]]] | Hu].
    - rewrite (dispatch_command i env Hty Hn). unfold command_response.
      apply String.eqb_neq in Ha, Hi. rewrite Ha, Hi. reflexivity.
    - destruct Hv as [_ Ht]. rewrite (dispatch_unknown i env Ht Hu). reflexivity. }
  split; [exact Hout|]. repeat split.
  intro Hu. destruct Hv as [Hp Ht].
  rewrite (router_post_accepted Hp Ht), (dispatch_unknown i env Ht Hu).
  unfold trace. simpl fst. apply in_or_app. right. left. reflexivity.
Qed.

(** C10. When the signature verifies but the body parses to [null],
    [false], [0] or the empty string, the handler answers with status 401
    and the text "Bad request signature.". *)
Theorem falsy_body_is_401 (request : Request) (env : Env) (i : value) :
  parsed_from request env i ->
  In i [VNull; VBool false; VNum 0; VStr ""] ->
  outcome (router_post request env) = Return bad_signature_response
  /\ status bad_signature_response = 401
  /\ body bad_signature_response = Some "Bad request signature.".
Proof.
  intros Hp Hin. unfold router_post. rewrite (guarded_accepted dispatch Hp).
  assert (Hf : truthy i = false).
  { simpl in Hin. destruct Hin as [<- | [<- | [<- | [<- | []]]]]; reflexivity. }
  rewrite Hf. repeat split.
Qed.

End Properties.

(** * The runtime's functions *)

(** Lowering two texts gives the same text exactly when they differ at
    most in the case of their ASCII letters. *)
Lemma same_ignoring_case_lowers (s t : string) :
  Runtime.same_ignoring_case s t = true
  <-> Runtime.toLowerCase s = Runtime.toLowerCase t.
Proof.
  revert t. induction s as [|c s IH]; intros [|d t]; simpl.
  - split; reflexivity.
  - split; discriminate.
  - split; discriminate.
  - rewrite andb_true_iff, Ascii.eqb_eq, IH. split.
    + intros [-> ->]. reflexivity.
    + intro E. injection E as Hc Hs. split; assumption.
Qed.

Lemma append_cancel_l (p s t : string) : p ++ s = p ++ t -> s = t.
Proof.
  induction p as [|c p IH]; simpl; intro E.
  - exact E.
  - injection E as E. apply IH. exact E.
Qed.

(** The runtime's scheme accepts what it signed and rejects every other
    body under that signature. *)
Lemma runtime_scheme_detects_tampering (key ts body altered : string) :
  Runtime.verifyKey body (Runtime.sign key ts body) ts key = true
  /\ (altered <> body ->
      Runtime.verifyKey altered (Runtime.sign key ts body) ts key = false).
Proof.
  unfold Runtime.verifyKey. split.
  - apply String.eqb_refl.
  - intro Hne. apply String.eqb_neq. unfold Runtime.sign. intro E.
    do 3 apply append_cancel_l in E. apply Hne. symmetry. exact E.
Qed.

(** * The properties on concrete requests *)

Definition ping_body : string := Runtime.json "{'type':1}".
Definition aww_body : string := Runtime.json "{'type':2,'data':{'name':'aww'}}".
Definition mixed_case_body : string := Runtime.json "{'type':2,'data':{'name':'AwW'}}".
Definition invite_body : string := Runtime.json "{'type':2,'data':{'name':'Invite'}}".
Definition stranger_body : string := Runtime.json "{'type':2,'data':{'name':'nope'}}".
Definition refine_body : string :=
  Runtime.json "{'type':3,'data':{'custom_id':'refine','values':['2']}}".
Definition autocomplete_body : string := Runtime.json "{'type':4}".

Definition command (s : string) : value :=
  VObj [("type", VNum 2); ("data", VObj [("name", VStr s)])].

Ltac run_request := vm_compute; repeat split; reflexivity.

Lemma interaction_only_after_verification_witness :
  Sample.run (Sample.unsigned ping_body) = ([], Return bad_signature_response)
  /\ (existsb is_parse_call (trace (Sample.run (Sample.signed ping_body))) = true ->
      @envelope_verified runtime_platform (Sample.signed ping_body) Sample.env = true).
Proof.
  split.
  - apply (proj1 (@interaction_only_after_verification runtime_platform
                    spec_commands (Sample.unsigned ping_body) Sample.env)).
    reflexivity.
  - apply (proj1 (proj2 (proj2 (@interaction_only_after_verification
                    runtime_platform spec_commands (Sample.signed ping_body)
                    Sample.env)))).
Defined.





Lemma missing_header_fails_without_verifyKey_witness :
  outcome (Sample.verify (Sample.unsigned ping_body)) = Return not_verified
  /\ isValid not_verified = false
  /\ existsb is_verifyKey_call (trace (Sample.verify (Sample.unsigned ping_body)))
     = false.
Proof.
  apply (@missing_header_fails_without_verifyKey runtime_platform
           (Sample.unsigned ping_body) Sample.env).
  left. reflexivity.
Defined.

Lemma ping_is_acknowledged_witness :
  exists r,
    outcome (Sample.run (Sample.signed ping_body)) = Return r
    /\ status r = 200
    /\ body r = JSON_stringify (VObj [("type", VNum InteractionResponseType.PONG)])
    /\ body r = Some (Runtime.json "{'type':1}")
    /\ Headers_get (headers r) "content-type"
       = Some "application/json;charset=UTF-8".
Proof.
  apply (@ping_is_acknowledged runtime_platform spec_commands
           (Sample.signed ping_body) Sample.env (VObj [("type", VNum 1)])).
  - run_request.
  - reflexivity.
Defined.

Lemma command_lookup_ignores_case_witness :
  outcome (Sample.run (Sample.signed mixed_case_body))
  = outcome (Sample.run (Sample.signed aww_body))
  /\ exists r,
       outcome (Sample.run (Sample.signed mixed_case_body)) = Return r
       /\ status r = 200.
Proof.
  apply (@command_lookup_ignores_case runtime_platform spec_commands
           (Sample.signed mixed_case_body) (Sample.signed aww_body) Sample.env
           (command "AwW") (command "aww") "AwW" (@AWW_COMMAND spec_commands)).
  - left. reflexivity.
  - reflexivity.
  - run_request.
  - split; reflexivity.
  - run_request.
  - split; reflexivity.
Defined.

(** C6, as the claim states it: three embeds, and an action row that
    holds the two buttons and the select menu. *)
Definition aww_layout_as_stated (data : value) : Prop :=
  List.length (elements (field data "embeds")) = 3%nat
  /\ one_row_holds_buttons_and_select data = true.

(** C6, counterexample. The answer to the signed command "aww" carries
    two action rows, and neither holds the buttons together with the
    select menu. *)
Lemma aww_layout_counterexample :
  exists payload,
    Sample.payload_of (Sample.run (Sample.signed aww_body)) = Some payload
    /\ List.length (rows (field payload "data")) = 2%nat
    /\ ~ aww_layout_as_stated (field payload "data").
Proof.
  exists aww_message. split; [vm_compute; reflexivity|].
  split; [reflexivity|].
  intros [_ Hrow]. vm_compute in Hrow. discriminate Hrow.
Qed.

Lemma aww_has_three_embeds_and_two_rows_witness :
  outcome (Sample.run (Sample.signed mixed_case_body))
  = Return (JsonResponse aww_message None)
  /\ buttons_row_then_select_row (field aww_message "data") = true.
Proof.
  destruct (@aww_has_three_embeds_and_two_rows runtime_platform spec_commands
              (Sample.signed mixed_case_body) Sample.env (command "AwW") "AwW")
    as (Hout & _ & _ & _ & _ & Hrows).
  - run_request.
  - split; reflexivity.
  - reflexivity.
  - split; [exact Hout | exact Hrows].
Defined.

Lemma invite_links_the_application_witness :
  outcome (Sample.run (Sample.signed invite_body))
  = Return (JsonResponse (invite_message Sample.env) None)
  /\ contains (INVITE_URL Sample.env) "client_id=1234567890"
  /\ field (field (invite_message Sample.env) "data") "flags" = VNum 64.
Proof.
  destruct (@invite_links_the_application runtime_platform spec_commands
              (Sample.signed invite_body) Sample.env (command "Invite") "Invite")
    as (Hout & _ & _ & (url & rest & Hurl & _ & Hin) & Hflags & _).
  - run_request.
  - split; reflexivity.
  - reflexivity.
  - discriminate.
  - simpl in Hurl. injection Hurl as <-.
    split; [exact Hout|]. split; [exact Hin | exact Hflags].
Defined.

Lemma refine_opens_prompt_modal_witness :
  outcome (Sample.run (Sample.signed refine_body))
  = Return (JsonResponse refine_modal None)
  /\ has_type InteractionResponseType.MODAL refine_modal = true.
Proof.
  destruct (@refine_opens_prompt_modal runtime_platform spec_commands
              (Sample.signed refine_body) Sample.env
              (VObj [("type", VNum 3);
                     ("data", VObj [("custom_id", VStr "refine");
                                    ("values", VArr [VStr "2"])])]))
    as (Hout & _ & _ & Hmodal & _).
  - run_request.
  - reflexivity.
  - reflexivity.
  - split; [exact Hout | exact Hmodal].
Defined.

Lemma unknown_is_400_witness :
  outcome (Sample.run (Sample.signed stranger_body)) = Return unknown_type_response
  /\ outcome (Sample.run (Sample.signed autocomplete_body))
     = Return unknown_type_response
  /\ In (EvConsoleError "Unknown Type")
       (trace (Sample.run (Sample.signed autocomplete_body))).
Proof.
  assert (Hv : @verified_interaction runtime_platform
                 (Sample.signed stranger_body) Sample.env (command "nope"))
    by run_request.
  assert (Hv' : @verified_interaction runtime_platform
                  (Sample.signed autocomplete_body) Sample.env
                  (VObj [("type", VNum 4)]))
    by run_request.
  assert (Hc : @unknown_command runtime_platform spec_commands (command "nope")).
  { exists "nope". split; [split; reflexivity|]. split; discriminate. }
  destruct (@unknown_is_400 runtime_platform spec_commands _ _ _ Hv (or_introl Hc))
    as (Hout & _).
  destruct (@unknown_is_400 runtime_platform spec_commands _ _ _ Hv'
              (or_intror eq_refl))
    as (Hout' & _ & _ & _ & Hlog).
  split; [exact Hout|]. split; [exact Hout'|]. exact (Hlog eq_refl).
Defined.

Definition numbered_name_body : string := Runtime.json "{'type':2,'data':{'name':5}}".

(** C9, as the claim states it: a command interaction whose [data.name]
    matches no known command, whatever kind of value the name is. *)
Definition unmatched_command_as_stated
    (platform : Platform) (commands : Commands) (i : value) : Prop :=
  field i "type" = VNum InteractionType.APPLICATION_COMMAND
  /\ forall s, field (field i "data") "name" = VStr s ->
       toLowerCase s <> toLowerCase (name AWW_COMMAND)
       /\ toLowerCase s <> toLowerCase (name INVITE_COMMAND).

(** C9, counterexample. The signed command whose name is the number 5
    matches no known command, and the handler throws a [TypeError] on it
    instead of answering 400. *)
Lemma unmatched_command_counterexample :
  exists i,
    @verified_interaction runtime_platform (Sample.signed numbered_name_body)
      Sample.env i
    /\ unmatched_command_as_stated runtime_platform spec_commands i
    /\ outcome (Sample.run (Sample.signed numbered_name_body)) = Throw TypeError
    /\ outcome (Sample.run (Sample.signed numbered_name_body))
       <> Return unknown_type_response.
Proof.
  exists (VObj [("type", VNum 2); ("data", VObj [("name", VNum 5)])]).
  split; [run_request|]. split.
  - split; [reflexivity|]. intros s Hs. discriminate Hs.
  - split; [vm_compute; reflexivity|]. vm_compute. discriminate.
Qed.

Lemma falsy_body_is_401_witness :
  outcome (Sample.run (Sample.signed "null")) = Return bad_signature_response
  /\ outcome (Sample.run (Sample.signed "0")) = Return bad_signature_response.
Proof.
  assert (Hp : @parsed_from runtime_platform (Sample.signed "null") Sample.env VNull)
    by run_request.
  assert (Hp' : @parsed_from runtime_platform (Sample.signed "0") Sample.env (VNum 0))
    by run_request.
  destruct (@falsy_body_is_401 runtime_platform spec_commands _ _ _ Hp
              (or_introl eq_refl)) as (Hout & _).
  destruct (@falsy_body_is_401 runtime_platform spec_commands _ _ _ Hp'
              (or_intror (or_intror (or_introl eq_refl)))) as (Hout' & _).
  split; [exact Hout | exact Hout'].
Defined.

(** * Further properties of the handler *)

(** Lines 34-36: the hello page, whose text is a waving hand, a space and
    the application id. *)
Definition router_get (env : Env) : Response :=
  new_Response (Some ("👋 " ++ DISCORD_APPLICATION_ID env)) None.

Definition is_string (v : value) : bool :=
  match v with
  | VStr _ => true
  | _ => false
  end.

(** [undefined] or [null]: the values a property cannot be read off. *)
Definition is_nullish (v : value) : bool :=
  match v with
  | VUndefined | VNull => true
  | _ => false
  end.

(** An interaction the dispatch cannot answer: a command whose
    [data.name] is not a string (or whose [data] is missing), or a
    component interaction without [data]. *)
Definition malformed (i : value) : bool :=
  (strict_eq_num (field i "type") InteractionType.APPLICATION_COMMAND
   && negb (is_string (field (field i "data") "name")))
  || (strict_eq_num (field i "type") InteractionType.MESSAGE_COMPONENT
      && is_nullish (field i "data")).

Definition json_content_type : string := "application/json;charset=UTF-8".
Definition text_content_type : string := "text/plain;charset=UTF-8".

Section Further.

Context {platform : Platform} {commands : Commands}.

Local Open Scope js_scope.

(** The dispatch of lines 52-202 on a truthy interaction, with every
    property read done. *)
Definition dispatch_table (i : value) (env : Env) : M Response :=
  let type := field i "type" in
  if strict_eq_num type InteractionType.PING then
    ret (JsonResponse pong None)
  else if strict_eq_num type InteractionType.APPLICATION_COMMAND then
    match field (field i "data") "name" with
    | VStr s => ret (command_response env (toLowerCase s))
    | _ => throw TypeError
    end
  else if strict_eq_num type InteractionType.MESSAGE_COMPONENT then
    if is_nullish (field i "data") then throw TypeError
    else if strict_eq_str (field (field i "data") "custom_id") "refine" then
      ret (JsonResponse refine_modal None)
    else ret (JsonResponse (echo_message (field i "data")) None)
  else if strict_eq_num type InteractionType.MODAL_SUBMIT then
    ret (JsonResponse (echo_message (field i "data")) None)
  else ([EvConsoleError "Unknown Type"], Return unknown_type_response).

Lemma bind_throw_l {A B} (e : exn) (f : A -> M B) : bind (throw e) f = throw e.
Proof. reflexivity. Qed.

Lemma get_nullish (v : value) (k : string) :
  is_nullish v = true -> get v k = throw TypeError.
Proof. destruct v; try discriminate; reflexivity. Qed.

Lemma get_present (v : value) (k : string) :
  is_nullish v = false -> get v k = ret (field v k).
Proof.
  intro Hn. apply get_field; intro E; subst v; discriminate.
Qed.

Lemma field_nullish (v : value) (k : string) :
  is_nullish v = true -> field v k = VUndefined.
Proof. destruct v; try discriminate; reflexivity. Qed.

Lemma dispatch_is_table (i : value) (env : Env) :
  truthy i = true -> dispatch i env = dispatch_table i env.
Proof.
  intro Ht. unfold dispatch, dispatch_table.
  rewrite truthy_get by exact Ht. rewrite bind_ret_l.
  destruct (strict_eq_num (field i "type") InteractionType.PING); [reflexivity|].
  destruct (strict_eq_num (field i "type") InteractionType.APPLICATION_COMMAND).
  - rewrite truthy_get by exact Ht. rewrite bind_ret_l.
    destruct (is_nullish (field i "data")) eqn:Hd.
    + rewrite (get_nullish _ _ Hd), bind_throw_l, (field_nullish _ _ Hd).
      reflexivity.
    + rewrite (get_present _ _ Hd), bind_ret_l.
      destruct (field (field i "data") "name"); try reflexivity.
      unfold call_toLowerCase, command_response. rewrite bind_ret_l.
      destruct (_ =? toLowerCase (name AWW_COMMAND))%string; [reflexivity|].
      destruct (_ =? toLowerCase (name INVITE_COMMAND))%string; reflexivity.
  - destruct (strict_eq_num (field i "type") InteractionType.MESSAGE_COMPONENT).
    + rewrite truthy_get by exact Ht. rewrite bind_ret_l.
      destruct (is_nullish (field i "data")) eqn:Hd.
      * rewrite (get_nullish _ _ Hd). reflexivity.
      * rewrite (get_present _ _ Hd), bind_ret_l.
        destruct (strict_eq_str _ "refine"); reflexivity.
    + destruct (strict_eq_num (field i "type") InteractionType.MODAL_SUBMIT).
      * rewrite truthy_get by exact Ht. rewrite bind_ret_l. reflexivity.
      * reflexivity.
Qed.

(** The handler in all its cases. *)
Lemma router_post_cases (request : Request) (env : Env) :
  router_post request env =
  if envelope_verified request env then
    match JSON_parse (req_text request) with
    | None => (accepted_trace request env, Throw SyntaxError)
    | Some i =>
        if truthy i then
          ((accepted_trace request env ++ trace (dispatch_table i env))%list,
           outcome (dispatch_table i env))
        else (accepted_trace request env, Return bad_signature_response)
    end
  else (rejected_trace request env, Return bad_signature_response).
Proof.
  unfold router_post.
  destruct (envelope_verified request env) eqn:Hv.
  - destruct (JSON_parse (req_text request)) as [i|] eqn:Hp.
    + rewrite (guarded_accepted dispatch (conj Hv Hp)).
      destruct (truthy i) eqn:Ht; [|reflexivity].
      rewrite (dispatch_is_table i env Ht). reflexivity.
    + apply guarded_unparsed; assumption.
  - apply guarded_rejected. exact Hv.
Qed.

Lemma verified_router_post (request : Request) (env : Env) (i : value) :
  verified_interaction request env i ->
  router_post request env =
  ((accepted_trace request env ++ trace (dispatch_table i env))%list,
   outcome (dispatch_table i env)).
Proof.
  intros [[Hv Hp] Ht]. rewrite router_post_cases, Hv, Hp, Ht. reflexivity.
Qed.

Lemma stringify_defined (v : value) :
  v <> VUndefined -> exists text, JSON_stringify v = Some text.
Proof.
  destruct v as [| |b| | | |]; intro Hv; try (simpl; eexists; reflexivity).
  - exfalso. apply Hv. reflexivity.
  - destruct b; eexists; reflexivity.
Qed.

(** The responses the handler can return. *)
Definition fixed_responses (env : Env) : list Response :=
  [bad_signature_response;
   JsonResponse pong None;
   JsonResponse aww_message None;
   JsonResponse (invite_message env) None;
   JsonResponse refine_modal None;
   unknown_type_response].

Lemma dispatch_table_responses (i : value) (env : Env) (r : Response) :
  outcome (dispatch_table i env) = Return r ->
  In r (fixed_responses env) \/ exists data, r = JsonResponse (echo_message data) None.
Proof.
  unfold dispatch_table, fixed_responses.
  destruct (strict_eq_num _ InteractionType.PING).
  { intro E; injection E as <-. left. simpl. tauto. }
  destruct (strict_eq_num _ InteractionType.APPLICATION_COMMAND).
  { destruct (field (field i "data") "name"); try discriminate.
    unfold command_response.
    destruct (_ =? toLowerCase (name AWW_COMMAND))%string.
    { intro E; injection E as <-. left. simpl. tauto. }
    destruct (_ =? toLowerCase (name INVITE_COMMAND))%string;
      intro E; injection E as <-; left; simpl; tauto. }
  destruct (strict_eq_num _ InteractionType.MESSAGE_COMPONENT).
  { destruct (is_nullish _); [discriminate|].
    destruct (strict_eq_str _ "refine"); intro E; injection E as <-.
    - left. simpl. tauto.
    - right. eexists. reflexivity. }
  destruct (strict_eq_num _ InteractionType.MODAL_SUBMIT);
    intro E; injection E as <-.
  - right. eexists. reflexivity.
  - left. simpl. tauto.
Qed.

Lemma router_post_responses (request : Request) (env : Env) (r : Response) :
  outcome (router_post request env) = Return r ->
  In r (fixed_responses env) \/ exists data, r = JsonResponse (echo_message data) None.
Proof.
  rewrite router_post_cases.
  destruct (envelope_verified request env).
  - destruct (JSON_parse (req_text request)) as [i|]; [|discriminate].
    destruct (truthy i).
    + apply dispatch_table_responses.
    + intro E; injection E as <-. left. left. reflexivity.
  - intro E; injection E as <-. left. left. reflexivity.
Qed.

(** *** The verifier *)

(** X1. What [verifyDiscordRequest] returns: [isValid] is the verdict on
    the envelope; a valid result carries the parsed body and an invalid
    one carries no interaction; and the only way it throws is a
    [SyntaxError] on a body that verified but is not JSON. *)
Theorem verifier_verdict (request : Request) (env : Env) :
  match outcome (verifyDiscordRequest request env) with
  | Return v =>
      isValid v = envelope_verified request env
      /\ (if isValid v
          then JSON_parse (req_text request) = Some (interaction v)
          else interaction v = VUndefined)
  | Throw e =>
      e = SyntaxError
      /\ envelope_verified request env = true
      /\ JSON_parse (req_text request) = None
  end.
Proof.
  destruct (envelope_verified request env) eqn:Hv.
  - rewrite (verify_accepted _ _ Hv). unfold outcome. simpl snd.
    destruct (JSON_parse (req_text request)); simpl; repeat split.
  - rewrite (verify_rejected _ _ Hv). simpl. split; reflexivity.
Qed.

(** X2. A signature header that is present but empty counts as missing:
    the verifier reports not valid, the handler answers 401, and neither
    calls [verifyKey] or parses the body. *)
Theorem empty_header_fails_without_verifyKey (request : Request) (env : Env) :
  Headers_get (req_headers request) "x-signature-ed25519" = Some ""
  \/ Headers_get (req_headers request) "x-signature-timestamp" = Some "" ->
  verifyDiscordRequest request env = ([], Return not_verified)
  /\ router_post request env = ([], Return bad_signature_response).
Proof.
  intro Hempty.
  assert (Hv : envelope_verified request env = false).
  { unfold envelope_verified. destruct Hempty as [-> | ->].
    - destruct (Headers_get _ "x-signature-timestamp"); reflexivity.
    - destruct (Headers_get _ "x-signature-ed25519") as [sig|]; [|reflexivity].
      simpl. rewrite andb_false_r. reflexivity. }
  assert (Ht : rejected_trace request env = []).
  { unfold rejected_trace. destruct Hempty as [-> | ->].
    - destruct (Headers_get _ "x-signature-timestamp"); reflexivity.
    - destruct (Headers_get _ "x-signature-ed25519") as [sig|]; [|reflexivity].
      simpl. rewrite andb_false_r. reflexivity. }
  rewrite (verify_rejected _ _ Hv), router_post_cases, Hv, Ht.
  split; reflexivity.
Qed.

(** *** When the handler throws *)

(** X3. A body that verifies but is not JSON makes the handler throw a
    [SyntaxError] right after the parse: it answers neither 401 nor 400. *)
Theorem unparsable_body_throws (request : Request) (env : Env) :
  envelope_verified request env = true ->
  JSON_parse (req_text request) = None ->
  outcome (router_post request env) = Throw SyntaxError
  /\ exists before,
       trace (router_post request env)
       = (before ++ [EvJSONParse (req_text request)])%list.
Proof.
  intros Hv Hp. rewrite router_post_cases, Hv, Hp. split; [reflexivity|].
  unfold trace, accepted_trace. simpl fst.
  unfold envelope_verified in Hv.
  destruct (Headers_get _ "x-signature-ed25519") as [sig|]; [|discriminate].
  destruct (Headers_get _ "x-signature-timestamp") as [ts|]; [|discriminate].
  eexists [_]. reflexivity.
Qed.

(** X4. On a verified interaction the handler throws exactly when the
    interaction is malformed (a command without a string [data.name], a
    component interaction without [data]), and what it throws is a
    [TypeError]; on every other verified interaction it returns a
    response. *)
Theorem throws_exactly_when_malformed
    (request : Request) (env : Env) (i : value) :
  verified_interaction request env i ->
  (malformed i = true <-> outcome (router_post request env) = Throw TypeError)
  /\ (malformed i = false <-> exists r, outcome (router_post request env) = Return r).
Proof.
  intro Hv. rewrite (verified_router_post Hv). unfold outcome at 1 2. simpl snd.
  unfold malformed, dispatch_table.
  destruct (strict_eq_num (field i "type") InteractionType.PING) eqn:H1.
  { assert (H2 : strict_eq_num (field i "type") InteractionType.APPLICATION_COMMAND = false)
      by (destruct (field i "type"); try reflexivity; simpl in *;
          apply Z.eqb_eq in H1; subst; reflexivity).
    assert (H3 : strict_eq_num (field i "type") InteractionType.MESSAGE_COMPONENT = false)
      by (destruct (field i "type"); try reflexivity; simpl in *;
          apply Z.eqb_eq in H1; subst; reflexivity).
    rewrite H2, H3. simpl.
    split; split; try discriminate; try reflexivity.
    intros _. eexists. reflexivity. }
  destruct (strict_eq_num (field i "type") InteractionType.APPLICATION_COMMAND) eqn:H2.
  { assert (H3 : strict_eq_num (field i "type") InteractionType.MESSAGE_COMPONENT = false)
      by (destruct (field i "type"); try reflexivity; simpl in *;
          apply Z.eqb_eq in H2; subst; reflexivity).
    rewrite H3. simpl. rewrite orb_false_r.
    destruct (field (field i "data") "name"); simpl;
      split; split; try discriminate; try reflexivity;
      try (intros [r Hr]; discriminate Hr).
    intros _. eexists. reflexivity. }
  destruct (strict_eq_num (field i "type") InteractionType.MESSAGE_COMPONENT) eqn:H3.
  { simpl. destruct (is_nullish (field i "data")).
    - split; split; try discriminate; try reflexivity.
      intros [r Hr]; discriminate Hr.
    - destruct (strict_eq_str _ "refine"); simpl;
        split; split; try discriminate; try reflexivity;
        intros _; eexists; reflexivity. }
  simpl.
  destruct (strict_eq_num (field i "type") InteractionType.MODAL_SUBMIT); simpl;
    split; split; try discriminate; try reflexivity;
    intros _; eexists; reflexivity.
Qed.

(** X5. A request whose envelope does not verify never makes the handler
    throw: whatever is thrown comes after a successful verification. *)
Theorem throws_only_after_verification
    (request : Request) (env : Env) (e : exn) :
  outcome (router_post request env) = Throw e ->
  envelope_verified request env = true.
Proof.
  rewrite router_post_cases.
  destruct (envelope_verified request env); [reflexivity|discriminate].
Qed.

(** *** The shape of every response *)

Lemma echo_body_defined (data : value) :
  exists text, JSON_stringify (echo_message data) = Some text.
Proof. apply stringify_defined. discriminate. Qed.



Lemma echo_body_not_empty (data : value) :
  exists text, JSON_stringify (echo_message data) = Some text /\ text <> "".
Proof.
  unfold echo_message. simpl. eexists. split; [reflexivity | discriminate].
Qed.

(** X6. Whatever the request, a response of the handler has status 200,
    400 or 401 and a body that is not empty. *)
Theorem response_status_and_body (request : Request) (env : Env) (r : Response) :
  outcome (router_post request env) = Return r ->
  (status r = 200 \/ status r = 400 \/ status r = 401)
  /\ exists text, body r = Some text /\ text <> "".
Proof.
  intro Hr. destruct (router_post_responses _ _ Hr) as [Hin | [data ->]].
  - simpl in Hin.
    destruct Hin as [<- | [<- | [<- | [<- | [<- | [<- | []]]]]]];
      (split; [simpl; tauto | eexists; split; [reflexivity | discriminate]]).
  - split; [left; reflexivity|].
    unfold JsonResponse, new_Response. cbn [body].
    apply echo_body_not_empty.
Qed.

(** X7. The content type follows the status: a response with status 200
    is labelled JSON, and the 400 and 401 responses are labelled plain
    text, although the body of the 400 response is a JSON text
    ([JsonResponse] sets its header only when it gets no [init]). *)
Theorem content_type_follows_status (request : Request) (env : Env) (r : Response) :
  outcome (router_post request env) = Return r ->
  Headers_get (headers r) "content-type"
  = Some (if status r =? 200 then json_content_type else text_content_type).
Proof.
  intro Hr. destruct (router_post_responses _ _ Hr) as [Hin | [data ->]].
  - simpl in Hin.
    destruct Hin as [<- | [<- | [<- | [<- | [<- | [<- | []]]]]]]; reflexivity.
  - unfold JsonResponse, new_Response. cbn [headers status init_headers init_status].
    destruct (echo_body_defined data) as [text ->]. reflexivity.
Qed.

(** *** The calls the handler makes *)

(** X8. The handler calls [verifyKey] at most once, then [JSON.parse] at
    most once and only after a call of [verifyKey] that said yes, then
    [console.error] at most once: its trace is empty, or the rejected
    call, or the accepted call and the parse, with or without the log. *)
Theorem trace_shape (request : Request) (env : Env) :
  let t := trace (router_post request env) in
  t = []
  \/ (exists sig ts,
        t = [EvVerifyKey (req_text request) sig ts (DISCORD_PUBLIC_KEY env) false])
  \/ (exists sig ts log,
        t = ([EvVerifyKey (req_text request) sig ts (DISCORD_PUBLIC_KEY env) true;
              EvJSONParse (req_text request)] ++ log)%list
        /\ (log = [] \/ log = [EvConsoleError "Unknown Type"])).
Proof.
  cbv zeta. rewrite router_post_cases.
  destruct (envelope_verified request env) eqn:Hv.
  - right. right. unfold envelope_verified in Hv. unfold accepted_trace.
    destruct (Headers_get _ "x-signature-ed25519") as [sig|]; [|discriminate].
    destruct (Headers_get _ "x-signature-timestamp") as [ts|]; [|discriminate].
    exists sig, ts.
    destruct (JSON_parse (req_text request)) as [i|].
    + destruct (truthy i).
      * exists (trace (dispatch_table i env)). split; [reflexivity|].
        unfold dispatch_table.
        repeat match goal with
               | |- context [if ?b then _ else _] => destruct b
               | |- context [match ?v with VStr _ => _ | _ => _ end] => destruct v
               end; simpl; tauto.
      * exists []. split; [reflexivity | left; reflexivity].
    + exists []. split; [reflexivity | left; reflexivity].
  - unfold trace, rejected_trace. simpl fst.
    destruct (Headers_get _ "x-signature-ed25519") as [sig|]; [|left; reflexivity].
    destruct (Headers_get _ "x-signature-timestamp") as [ts|]; [|left; reflexivity].
    destruct (negb _ && negb _); [|left; reflexivity].
    right. left. exists sig, ts. reflexivity.
Qed.

(** X9. Whenever [verifyKey] is called, it is called on the text of the
    request, the values of the two signature headers and the configured
    public key, and the verdict it gave is the verdict on the envelope. *)
Theorem verifyKey_called_on_the_envelope
    (request : Request) (env : Env)
    (b sig ts key : string) (verdict : bool) :
  In (EvVerifyKey b sig ts key verdict) (trace (router_post request env)) ->
  b = req_text request
  /\ Headers_get (req_headers request) "x-signature-ed25519" = Some sig
  /\ Headers_get (req_headers request) "x-signature-timestamp" = Some ts
  /\ key = DISCORD_PUBLIC_KEY env
  /\ verdict = verifyKey b sig ts key
  /\ verdict = envelope_verified request env.
Proof.
  rewrite router_post_cases.
  destruct (envelope_verified request env) eqn:Hv.
  - intro H0.
    assert (H1 : In (EvVerifyKey b sig ts key verdict) (accepted_trace request env)).
    { destruct (JSON_parse (req_text request)) as [i|]; [|exact H0].
      destruct (truthy i); [|exact H0].
      unfold trace in H0. simpl fst in H0. apply in_app_or in H0.
      destruct H0 as [H0 | H0]; [exact H0|]. exfalso.
      unfold dispatch_table in H0.
      repeat match type of H0 with
             | context [if ?c then _ else _] => destruct c
             | context [match ?v with VStr _ => _ | _ => _ end] => destruct v
             end; simpl in H0; try contradiction;
        destruct H0 as [H0 | []]; discriminate H0. }
    clear H0. unfold accepted_trace in H1. unfold envelope_verified in Hv.
    destruct (Headers_get _ "x-signature-ed25519") as [sig'|]; [|discriminate].
    destruct (Headers_get _ "x-signature-timestamp") as [ts'|]; [|discriminate].
    destruct H1 as [E | [E | []]]; [|discriminate E].
    injection E as <- <- <- <- <-.
    apply andb_prop in Hv. destruct Hv as [_ Hk]. rewrite Hk. repeat split.
  - unfold trace, rejected_trace. simpl fst.
    unfold envelope_verified in Hv.
    destruct (Headers_get _ "x-signature-ed25519") as [sig'|]; [|intros []].
    destruct (Headers_get _ "x-signature-timestamp") as [ts'|]; [|intros []].
    destruct (negb _ && negb _); [|intros []].
    simpl in Hv. intros [E | []]. injection E as <- <- <- <- <-.
    rewrite Hv. repeat split.
Qed.

(** X10. On a verified interaction, [console.error] is called exactly
    when the type is none of the four the handler knows: the 400 answer to
    an unknown command name is not logged. *)
Theorem logged_exactly_on_unknown_discriminant
    (request : Request) (env : Env) (i : value) :
  verified_interaction request env i ->
  (In (EvConsoleError "Unknown Type") (trace (router_post request env))
   <-> unknown_discriminant i = true).
Proof.
  intro Hv. rewrite (verified_router_post Hv). unfold trace. simpl fst.
  assert (Hacc : ~ In (EvConsoleError "Unknown Type") (accepted_trace request env)).
  { unfold accepted_trace.
    destruct (Headers_get _ "x-signature-ed25519"); [|intros []].
    destruct (Headers_get _ "x-signature-timestamp"); [|intros []].
    intros [E | [E | []]]; discriminate E. }
  unfold unknown_discriminant, dispatch_table.
  destruct (strict_eq_num _ InteractionType.PING);
    [simpl; rewrite app_nil_r; split; [intro; contradiction | discriminate]|].
  destruct (strict_eq_num _ InteractionType.APPLICATION_COMMAND).
  { simpl. split; [|discriminate]. intro Hin. apply in_app_or in Hin.
    destruct Hin as [Hin | Hin]; [contradiction|].
    destruct (field (field i "data") "name"); destruct Hin. }
  destruct (strict_eq_num _ InteractionType.MESSAGE_COMPONENT).
  { simpl. split; [|discriminate]. intro Hin. apply in_app_or in Hin.
    destruct Hin as [Hin | Hin]; [contradiction|].
    destruct (is_nullish _); [destruct Hin|].
    destruct (strict_eq_str _ "refine"); destruct Hin. }
  destruct (strict_eq_num _ InteractionType.MODAL_SUBMIT).
  { simpl. rewrite app_nil_r. split; [intro; contradiction | discriminate]. }
  simpl. split; [reflexivity|]. intros _. apply in_or_app. right. left. reflexivity.
Qed.

(** *** The branches that echo the interaction *)





(** *** The strict comparison of the type *)

(** X13. The type is compared with [===]: a verified interaction whose
    [type] is not a number (a string such as "1", a missing type) and a
    verified body that is no object at all (an array, a string, a number,
    [true]) are answered with the logged status 400. *)
Theorem type_must_be_a_number (request : Request) (env : Env) (i : value) :
  verified_interaction request env i ->
  is_object i = false \/ (forall n, field i "type" <> VNum n) ->
  router_post request env
  = ((accepted_trace request env ++ [EvConsoleError "Unknown Type"])%list,
     Return unknown_type_response)
  /\ status unknown_type_response = 400.
Proof.
  intros Hv Hty. split; [|reflexivity].
  assert (Hnum : forall n, strict_eq_num (field i "type") n = false).
  { intro n. destruct Hty as [Hobj | Hn].
    - destruct i; try reflexivity. discriminate Hobj.
    - destruct (field i "type") as [| | |m| | |] eqn:E; try reflexivity.
      exfalso. exact (Hn m eq_refl). }
  rewrite (verified_router_post Hv). unfold dispatch_table.
  rewrite !Hnum. reflexivity.
Qed.

(** *** What a response depends on *)

(** X14. The dispatch reads the environment only for the application id:
    two environments with the same application id, whatever their public
    keys, give the same response and the same trace. *)
Theorem dispatch_ignores_public_key (i : value) (env env' : Env) :
  DISCORD_APPLICATION_ID env = DISCORD_APPLICATION_ID env' ->
  dispatch i env = dispatch i env'.
Proof.
  intro Hid. unfold dispatch.
  assert (E : invite_message env = invite_message env')
    by (unfold invite_message, INVITE_URL; rewrite Hid; reflexivity).
  rewrite E. reflexivity.
Qed.

(** X15. The handler keeps no state and reads nothing of a verified
    request but its interaction: two requests that verify to the same
    interaction, under environments with the same application id, get the
    same response, whatever their headers, timestamps and public keys. *)
Theorem response_depends_on_interaction_only
    (request request' : Request) (env env' : Env) (i : value) :
  verified_interaction request env i ->
  verified_interaction request' env' i ->
  DISCORD_APPLICATION_ID env = DISCORD_APPLICATION_ID env' ->
  outcome (router_post request env) = outcome (router_post request' env').
Proof.
  intros Hv Hv' Hid.
  rewrite (verified_router_post Hv), (verified_router_post Hv').
  unfold outcome at 1 3. simpl snd.
  destruct Hv as [_ Ht].
  rewrite <- !(dispatch_is_table _ _ Ht).
  unfold dispatch.
  assert (E : invite_message env = invite_message env')
    by (unfold invite_message, INVITE_URL; rewrite Hid; reflexivity).
  rewrite E. reflexivity.
Qed.

End Further.

(** * The further properties on concrete requests *)

Example hello_page :
  status (router_get Sample.env) = 200
  /\ body (router_get Sample.env) = Some ("👋 " ++ "1234567890")
  /\ Headers_get (headers (router_get Sample.env)) "content-type"
     = Some text_content_type.
Proof. repeat split. Qed.

Definition empty_signature (body : string) : Request :=
  {| req_headers :=
       [("x-signature-ed25519", ""); ("x-signature-timestamp", "1700000000")];
     req_text := body |}.

Definition nameless_body : string := Runtime.json "{'type':2,'data':{}}".
Definition string_type_body : string := Runtime.json "{'type':'1'}".
Definition array_body : string := "[1]".

Definition other_key_env : Env :=
  {| DISCORD_APPLICATION_ID := "1234567890"; DISCORD_PUBLIC_KEY := "another" |}.

Lemma empty_header_fails_without_verifyKey_witness :
  Sample.verify (empty_signature ping_body) = ([], Return not_verified)
  /\ Sample.run (empty_signature ping_body) = ([], Return bad_signature_response).
Proof.
  destruct (@empty_header_fails_without_verifyKey runtime_platform spec_commands
              (empty_signature ping_body) Sample.env (or_introl eq_refl))
    as [Hverify Hrun].
  split; [exact Hverify | exact Hrun].
Defined.

Lemma unparsable_body_throws_witness :
  outcome (Sample.run (Sample.signed "nul")) = Throw SyntaxError.
Proof.
  assert (Hv : @envelope_verified runtime_platform (Sample.signed "nul") Sample.env
               = true) by (vm_compute; reflexivity).
  assert (Hp : Runtime.JSON_parse "nul" = None) by (vm_compute; reflexivity).
  destruct (@unparsable_body_throws runtime_platform spec_commands
              (Sample.signed "nul") Sample.env Hv Hp) as [Hout _].
  exact Hout.
Defined.

Lemma throws_exactly_when_malformed_witness :
  outcome (Sample.run (Sample.signed nameless_body)) = Throw TypeError
  /\ exists r, outcome (Sample.run (Sample.signed ping_body)) = Return r.
Proof.
  assert (Hv : @verified_interaction runtime_platform
                 (Sample.signed nameless_body) Sample.env
                 (VObj [("type", VNum 2); ("data", VObj [])]))
    by run_request.
  assert (Hv' : @verified_interaction runtime_platform
                  (Sample.signed ping_body) Sample.env (VObj [("type", VNum 1)]))
    by run_request.
  destruct (@throws_exactly_when_malformed runtime_platform spec_commands _ _ _ Hv)
    as [[Hthrow _] _].
  destruct (@throws_exactly_when_malformed runtime_platform spec_commands _ _ _ Hv')
    as [_ [Hreturn _]].
  split; [exact (Hthrow eq_refl) | exact (Hreturn eq_refl)].
Defined.

Lemma throws_only_after_verification_witness :
  @envelope_verified runtime_platform (Sample.signed nameless_body) Sample.env = true.
Proof.
  assert (Hthrow : outcome (Sample.run (Sample.signed nameless_body)) = Throw TypeError)
    by (vm_compute; reflexivity).
  exact (@throws_only_after_verification runtime_platform spec_commands
           (Sample.signed nameless_body) Sample.env TypeError Hthrow).
Defined.

Lemma response_status_and_body_witness :
  (status unknown_type_response = 200 \/ status unknown_type_response = 400
   \/ status unknown_type_response = 401)
  /\ exists text, body unknown_type_response = Some text /\ text <> "".
Proof.
  assert (Hr : outcome (Sample.run (Sample.signed stranger_body))
               = Return unknown_type_response) by (vm_compute; reflexivity).
  exact (@response_status_and_body runtime_platform spec_commands
           (Sample.signed stranger_body) Sample.env unknown_type_response Hr).
Defined.

Lemma content_type_follows_status_witness :
  Headers_get (headers unknown_type_response) "content-type"
  = Some (if status unknown_type_response =? 200
          then json_content_type else text_content_type).
Proof.
  assert (Hr : outcome (Sample.run (Sample.signed stranger_body))
               = Return unknown_type_response) by (vm_compute; reflexivity).
  exact (@content_type_follows_status runtime_platform spec_commands
           (Sample.signed stranger_body) Sample.env unknown_type_response Hr).
Defined.

Lemma verifyKey_called_on_the_envelope_witness :
  aww_body = req_text (with_body (Sample.signed ping_body) aww_body)
  /\ false = @envelope_verified runtime_platform
               (with_body (Sample.signed ping_body) aww_body) Sample.env.
Proof.
  assert (Hin : In (EvVerifyKey aww_body (Runtime.sign "pk" "1700000000" ping_body)
                      "1700000000" "pk" false)
                   (trace (Sample.run (with_body (Sample.signed ping_body) aww_body))))
    by (vm_compute; left; reflexivity).
  destruct (@verifyKey_called_on_the_envelope runtime_platform spec_commands
              _ _ _ _ _ _ _ Hin) as (Hb & _ & _ & _ & _ & Hverdict).
  split; [exact Hb | exact Hverdict].
Defined.

Lemma logged_exactly_on_unknown_discriminant_witness :
  ~ In (EvConsoleError "Unknown Type") (trace (Sample.run (Sample.signed stranger_body)))
  /\ In (EvConsoleError "Unknown Type")
       (trace (Sample.run (Sample.signed autocomplete_body))).
Proof.
  assert (Hv : @verified_interaction runtime_platform
                 (Sample.signed stranger_body) Sample.env (command "nope"))
    by run_request.
  assert (Hv' : @verified_interaction runtime_platform
                  (Sample.signed autocomplete_body) Sample.env
                  (VObj [("type", VNum 4)]))
    by run_request.
  destruct (@logged_exactly_on_unknown_discriminant runtime_platform spec_commands
              _ _ _ Hv) as [Hquiet _].
  destruct (@logged_exactly_on_unknown_discriminant runtime_platform spec_commands
              _ _ _ Hv') as [_ Hlogged].
  split.
  - intro Hin. discriminate (Hquiet Hin).
  - exact (Hlogged eq_refl).
Defined.



Lemma type_must_be_a_number_witness :
  outcome (Sample.run (Sample.signed string_type_body)) = Return unknown_type_response
  /\ outcome (Sample.run (Sample.signed array_body)) = Return unknown_type_response.
Proof.
  assert (Hv : @verified_interaction runtime_platform
                 (Sample.signed string_type_body) Sample.env
                 (VObj [("type", VStr "1")]))
    by run_request.
  assert (Hv' : @verified_interaction runtime_platform
                  (Sample.signed array_body) Sample.env (VArr [VNum 1]))
    by run_request.
  assert (Hstr : forall n, field (VObj [("type", VStr "1")]) "type" <> VNum n)
    by (intro n; discriminate).
  destruct (@type_must_be_a_number runtime_platform spec_commands _ _ _ Hv
              (or_intror Hstr)) as [Hrun _].
  destruct (@type_must_be_a_number runtime_platform spec_commands _ _ _ Hv'
              (or_introl eq_refl)) as [Hrun' _].
  split.
  - exact (f_equal snd Hrun).
  - exact (f_equal snd Hrun').
Defined.

Lemma dispatch_ignores_public_key_witness :
  @dispatch runtime_platform spec_commands (command "invite") Sample.env
  = @dispatch runtime_platform spec_commands (command "invite") other_key_env.
Proof.
  exact (@dispatch_ignores_public_key runtime_platform spec_commands
           (command "invite") Sample.env other_key_env eq_refl).
Defined.

Definition later_signed (body : string) : Request :=
  {| req_headers :=
       [("x-signature-timestamp", "1800000000");
        ("x-signature-ed25519", Runtime.sign "another" "1800000000" body)];
     req_text := body |}.

Lemma response_depends_on_interaction_only_witness :
  outcome (Sample.run (Sample.signed invite_body))
  = outcome (@router_post runtime_platform spec_commands
               (later_signed (Runtime.json " { 'type' : 2 , 'data' : { 'name' : 'Invite' } } "))
               other_key_env).
Proof.
  assert (Hv : @verified_interaction runtime_platform
                 (Sample.signed invite_body) Sample.env (command "Invite"))
    by run_request.
  assert (Hv' : @verified_interaction runtime_platform
                  (later_signed
                     (Runtime.json " { 'type' : 2 , 'data' : { 'name' : 'Invite' } } "))
                  other_key_env (command "Invite")).
  { run_request. }
  exact (@response_depends_on_interaction_only runtime_platform spec_commands
           _ _ _ _ _ Hv Hv' eq_refl).
Defined.
